(** * go-filesha-verifier: pair registry, worker state transitions,
      checksum-file parsing, file routing and statistics.

    A shallow embedding of the Go sources:
    - [file_tracker.go]   -> Module [Tracker]
    - [statistics.go]     -> Module [Stats]
    - [sha_verifier.go]   -> Module [Verifier]
    - [file_operations.go]-> Module [FileOps]
    - [worker_pool.go] and the coordinator of [main.go] -> Module [Pipeline]
    - [file_scanner.go]   -> Module [Scanner]

    Conventions.  Go strings are [string]s (sequences of bytes, one [ascii]
    per byte).  [int64], [time.Duration] and [time.Time] are [Z]; a point in
    time is the number of nanoseconds since an arbitrary origin, and every
    function that reads the clock ([time.Now()]) takes that reading as an
    explicit argument [now].  A Go run-time panic is the outcome [Panic] of
    the [exec] type.  Locks are not modelled: every method below runs with
    the lock held from its first to its last statement, so each one is an
    atomic state transformer. *)

From Stdlib Require Import ZArith String Ascii List Bool Lia DecimalString.
From stdpp Require Import gmap strings list fin_maps.

Local Open Scope string_scope.
Local Open Scope Z_scope.

(** ** Outcomes of Go code that may panic *)

Inductive exec (A : Type) : Type :=
| Ret (a : A)
| Panic.
Arguments Ret {A} a.
Arguments Panic {A}.

Definition is_panic {A} (e : exec A) : bool :=
  match e with Panic => true | Ret _ => false end.

(** ** The fragment of [path/filepath] (Unix) used by the sources *)

Module Filepath.

Definition Separator : ascii := "/"%char.

Definition IsPathSeparator (c : ascii) : bool := Ascii.eqb c Separator.

Fixpoint has_separator (s : string) : bool :=
  match s with
  | EmptyString => false
  | String c s' => IsPathSeparator c || has_separator s'
  end.

(** [for len(path) > 0 && IsPathSeparator(path[len(path)-1]) { path = path[:len(path)-1] }] *)
Fixpoint strip_trailing_separators (s : string) : string :=
  match s with
  | EmptyString => EmptyString
  | String c s' =>
      match strip_trailing_separators s' with
      | EmptyString => if IsPathSeparator c then EmptyString else String c EmptyString
      | r => String c r
      end
  end.

(** [path[i+1:]] for the index [i] of the last separator ([path] itself
    when there is none). *)
Fixpoint last_element (s : string) : string :=
  match s with
  | EmptyString => EmptyString
  | String c s' =>
      if has_separator s' then last_element s'
      else if IsPathSeparator c then s' else s
  end.

(** [filepath.Base]: the last element of the path; trailing separators
    are removed first; ["."] for the empty path and ["/"] for a path made
    of separators only. *)
Definition Base (path : string) : string :=
  match path with
  | EmptyString => "."
  | _ =>
      match last_element (strip_trailing_separators path) with
      | EmptyString => String Separator EmptyString
      | e => e
      end
  end.

Fixpoint has_dot_or_separator (s : string) : bool :=
  match s with
  | EmptyString => false
  | String c s' => Ascii.eqb c "."%char || IsPathSeparator c || has_dot_or_separator s'
  end.

(** [filepath.Ext]: the suffix starting at the last dot of the last
    element of the path, empty when that element has no dot. *)
Fixpoint Ext (path : string) : string :=
  match path with
  | EmptyString => EmptyString
  | String c s' =>
      if has_dot_or_separator s' then Ext s'
      else if Ascii.eqb c "."%char then path else EmptyString
  end.

(** [filepath.Join] of a folder and one file name.  Empty elements are
    ignored and the others are joined by the separator.  The library also
    applies [Clean] to the result; the folders of the configuration and
    the names produced by [Base] are taken to be clean already, so [Clean]
    is the identity on the paths built here and is not modelled. *)
Definition Join (dir name : string) : string :=
  match dir, name with
  | EmptyString, _ => name
  | _, EmptyString => dir
  | _, _ => dir +:+ String Separator name
  end.

End Filepath.

(** ** types.go: the domain types *)

Record FilePair := mkFilePair {
  DataFile : string;      (* e.g. "data.zip" *)
  DataFilePath : string;  (* full path to the data file *)
  SHA256File : string;    (* e.g. "data.zip.sha256" *)
  SHA256Path : string;    (* full path to the SHA256 file *)
  DataSize : Z;           (* size in bytes *)
  FirstSeen : Z;          (* when first detected *)
  HasBothFiles : bool     (* true when both data and .sha256 exist *)
}.

Record VerificationJob := mkJob {
  JobFilePair : FilePair;
  RetryDeadline : Z;      (* time when we give up and move to DLQ *)
  BufferSize : Z
}.

Record VerificationResult := mkResult {
  Job : VerificationJob;
  Success : bool;
  ErrorMessage : string;
  ComputedHash : string;
  ExpectedHash : string;
  Duration : Z;
  Timestamp : Z
}.

Record Statistics := mkStatistics {
  TotalProcessed : Z;
  SuccessCount : Z;
  FailureCount : Z;
  PendingCount : Z;
  TotalDuration : Z;
  StartTime : Z
}.

#[global] Instance FilePair_eq_dec : EqDecision FilePair.
Proof. solve_decision. Defined.

(** ** file_tracker.go *)

Module Tracker.

(** [files] is the Go [map[string]*FilePair].  The pointers never leave
    the tracker (every getter copies the pair), so a map to values with
    in-place updates written as [insert] is the same store. *)
Record FileTracker := mkFileTracker {
  files : gmap string FilePair;
  retryTimeout : Z
}.

Definition NewFileTracker (retryTimeout : Z) : FileTracker :=
  {| files := ∅; retryTimeout := retryTimeout |}.

Definition with_files (ft : FileTracker) (m : gmap string FilePair) : FileTracker :=
  {| files := m; retryTimeout := retryTimeout ft |}.

Definition AddOrUpdateDataFile (ft : FileTracker) (dataFilePath : string)
    (dataSize : Z) (now : Z) : FileTracker :=
  let dataFile := Filepath.Base dataFilePath in
  match files ft !! dataFile with
  | Some pr =>
      with_files ft (<[dataFile :=
        {| DataFile := DataFile pr;
           DataFilePath := dataFilePath;
           SHA256File := SHA256File pr;
           SHA256Path := SHA256Path pr;
           DataSize := dataSize;
           FirstSeen := FirstSeen pr;
           HasBothFiles := HasBothFiles pr |}]> (files ft))
  | None =>
      with_files ft (<[dataFile :=
        {| DataFile := dataFile;
           DataFilePath := dataFilePath;
           SHA256File := "";
           SHA256Path := "";
           DataSize := dataSize;
           FirstSeen := now;
           HasBothFiles := false |}]> (files ft))
  end.

(** [sha256File[:len(sha256File)-7]]: the slice expression panics when
    the upper bound is negative. *)
Definition derive_data_file (sha256File : string) : exec string :=
  let n := Z.of_nat (String.length sha256File) - 7 in
  if n <? 0 then Panic
  else Ret (substring 0 (Z.to_nat n) sha256File).

Definition AddOrUpdateSHA256File (ft : FileTracker) (sha256FilePath : string)
    (now : Z) : exec FileTracker :=
  let sha256File := Filepath.Base sha256FilePath in
  match derive_data_file sha256File with
  | Panic => Panic
  | Ret dataFile =>
      match files ft !! dataFile with
      | Some pr =>
          Ret (with_files ft (<[dataFile :=
            {| DataFile := DataFile pr;
               DataFilePath := DataFilePath pr;
               SHA256File := sha256File;
               SHA256Path := sha256FilePath;
               DataSize := DataSize pr;
               FirstSeen := FirstSeen pr;
               HasBothFiles := true |}]> (files ft)))
      | None =>
          Ret (with_files ft (<[dataFile :=
            {| DataFile := dataFile;
               DataFilePath := "";
               SHA256File := sha256File;
               SHA256Path := sha256FilePath;
               DataSize := 0;
               FirstSeen := now;
               HasBothFiles := false |}]> (files ft)))
      end
  end.

Definition MarkBothFilesPresent (ft : FileTracker) (dataFile : string) : FileTracker :=
  match files ft !! dataFile with
  | Some pr =>
      with_files ft (<[dataFile :=
        {| DataFile := DataFile pr;
           DataFilePath := DataFilePath pr;
           SHA256File := SHA256File pr;
           SHA256Path := SHA256Path pr;
           DataSize := DataSize pr;
           FirstSeen := FirstSeen pr;
           HasBothFiles := true |}]> (files ft))
  | None => ft
  end.

(** The test of the loop body of [GetReadyForVerification]. *)
Definition is_ready (pr : FilePair) : bool :=
  HasBothFiles pr
  && negb (String.eqb (DataFilePath pr) "")
  && negb (String.eqb (SHA256Path pr) "").

(** [range] over a Go map visits the entries in an unspecified order;
    the order of [map_to_list] stands for it. *)
Definition all_pairs (ft : FileTracker) : list FilePair :=
  (map_to_list (files ft)).*2.

Definition GetReadyForVerification (ft : FileTracker) : list FilePair :=
  List.filter is_ready (all_pairs ft).

(** The test of the loop body of [GetExpiredFiles]:
    [now.Sub(pair.FirstSeen) >= ft.retryTimeout]. *)
Definition is_expired (ft : FileTracker) (now : Z) (pr : FilePair) : bool :=
  retryTimeout ft <=? now - FirstSeen pr.

Definition GetExpiredFiles (ft : FileTracker) (now : Z) : list FilePair :=
  List.filter (is_expired ft now) (all_pairs ft).

Definition Remove (ft : FileTracker) (dataFile : string) : FileTracker :=
  with_files ft (delete dataFile (files ft)).

Definition RemoveByPath (ft : FileTracker) (dataFilePath : string) : FileTracker :=
  Remove ft (Filepath.Base dataFilePath).

Definition GetPendingCount (ft : FileTracker) : Z :=
  Z.of_nat (size (files ft)).

Definition GetFilePair (ft : FileTracker) (dataFile : string) : option FilePair :=
  files ft !! dataFile.

Definition IsExpired (ft : FileTracker) (dataFile : string) (now : Z) : bool :=
  match files ft !! dataFile with
  | None => false
  | Some pr => retryTimeout ft <=? now - FirstSeen pr
  end.

Definition GetAllFiles (ft : FileTracker) : list FilePair := all_pairs ft.

(** *** Sequences of registry calls *)

Inductive call :=
| RecordData (path : string) (size : Z) (now : Z)
| RecordChecksum (path : string) (now : Z)
| RemoveKey (key : string).

Definition step (ft : FileTracker) (c : call) : exec FileTracker :=
  match c with
  | RecordData path size now => Ret (AddOrUpdateDataFile ft path size now)
  | RecordChecksum path now => AddOrUpdateSHA256File ft path now
  | RemoveKey key => Ret (Remove ft key)
  end.

Fixpoint run (ft : FileTracker) (cs : list call) : exec FileTracker :=
  match cs with
  | [] => Ret ft
  | c :: cs' =>
      match step ft c with
      | Panic => Panic
      | Ret ft' => run ft' cs'
      end
  end.

(** The entry of [k], and the ready list, after a sequence of calls. *)
Definition lookup_after (ft : FileTracker) (cs : list call) (k : string)
    : exec (option FilePair) :=
  match run ft cs with
  | Panic => Panic
  | Ret ft' => Ret (files ft' !! k)
  end.

(** The registry after a sequence of calls (the registry itself when a
    call panics). *)
Definition state_after (ft : FileTracker) (cs : list call) : FileTracker :=
  match run ft cs with
  | Panic => ft
  | Ret ft' => ft'
  end.

Definition ready_after (ft : FileTracker) (cs : list call) : exec (list FilePair) :=
  match run ft cs with
  | Panic => Panic
  | Ret ft' => Ret (GetReadyForVerification ft')
  end.

(** [Clear] and [UpdateRetryTimeout] *)
Definition Clear (ft : FileTracker) : FileTracker :=
  with_files ft ∅.

Definition UpdateRetryTimeout (ft : FileTracker) (timeout : Z) : FileTracker :=
  {| files := files ft; retryTimeout := timeout |}.

End Tracker.

(** ** statistics.go *)

Module Stats.

(** [int64] arithmetic wraps around in two's complement. *)
Definition wrap64 (z : Z) : Z := (z + 2 ^ 63) mod 2 ^ 64 - 2 ^ 63.

Record StatsTracker := mkStatsTracker {
  totalProcessed : Z;
  successCount : Z;
  failureCount : Z;
  pendingCount : Z;
  totalDuration : Z;
  startTime : Z
}.

Definition NewStatsTracker (now : Z) : StatsTracker :=
  {| totalProcessed := 0; successCount := 0; failureCount := 0;
     pendingCount := 0; totalDuration := 0; startTime := now |}.

Definition IncrementSuccess (s : StatsTracker) (duration : Z) : StatsTracker :=
  {| totalProcessed := wrap64 (totalProcessed s + 1);
     successCount := wrap64 (successCount s + 1);
     failureCount := failureCount s;
     pendingCount := pendingCount s;
     totalDuration := wrap64 (totalDuration s + duration);
     startTime := startTime s |}.

Definition IncrementFailure (s : StatsTracker) (duration : Z) : StatsTracker :=
  {| totalProcessed := wrap64 (totalProcessed s + 1);
     successCount := successCount s;
     failureCount := wrap64 (failureCount s + 1);
     pendingCount := pendingCount s;
     totalDuration := wrap64 (totalDuration s + duration);
     startTime := startTime s |}.

Definition with_pending (s : StatsTracker) (n : Z) : StatsTracker :=
  {| totalProcessed := totalProcessed s;
     successCount := successCount s;
     failureCount := failureCount s;
     pendingCount := n;
     totalDuration := totalDuration s;
     startTime := startTime s |}.

Definition SetPendingCount (s : StatsTracker) (count : Z) : StatsTracker :=
  with_pending s count.

Definition IncrementPending (s : StatsTracker) : StatsTracker :=
  with_pending s (wrap64 (pendingCount s + 1)).

Definition DecrementPending (s : StatsTracker) : StatsTracker :=
  if 0 <? pendingCount s then with_pending s (wrap64 (pendingCount s - 1)) else s.

Definition GetStatistics (s : StatsTracker) : Statistics :=
  {| TotalProcessed := totalProcessed s;
     SuccessCount := successCount s;
     FailureCount := failureCount s;
     PendingCount := pendingCount s;
     TotalDuration := totalDuration s;
     StartTime := startTime s |}.

Definition Reset (s : StatsTracker) (now : Z) : StatsTracker :=
  {| totalProcessed := 0; successCount := 0; failureCount := 0;
     pendingCount := 0; totalDuration := 0; startTime := now |}.

(** *** Sequences of calls on one tracker *)

Inductive call :=
| CallIncrementSuccess (duration : Z)
| CallIncrementFailure (duration : Z)
| CallSetPendingCount (count : Z)
| CallIncrementPending
| CallDecrementPending
| CallReset (now : Z).

Definition step (s : StatsTracker) (c : call) : StatsTracker :=
  match c with
  | CallIncrementSuccess d => IncrementSuccess s d
  | CallIncrementFailure d => IncrementFailure s d
  | CallSetPendingCount n => SetPendingCount s n
  | CallIncrementPending => IncrementPending s
  | CallDecrementPending => DecrementPending s
  | CallReset now => Reset s now
  end.

Definition run (s : StatsTracker) (cs : list call) : StatsTracker :=
  fold_left step cs s.

(** The invariant of the three processing counters. *)
Definition counters_consistent (s : StatsTracker) : Prop :=
  totalProcessed s = successCount s + failureCount s
  /\ 0 <= totalProcessed s /\ 0 <= successCount s /\ 0 <= failureCount s.

(** Counting the calls of a sequence. *)
Definition is_success (c : call) : bool :=
  match c with CallIncrementSuccess _ => true | _ => false end.

Definition is_failure (c : call) : bool :=
  match c with CallIncrementFailure _ => true | _ => false end.

Definition is_reset (c : call) : bool :=
  match c with CallReset _ => true | _ => false end.

Definition count (f : call -> bool) (cs : list call) : Z :=
  Z.of_nat (List.length (List.filter f cs)).

End Stats.

(** ** sha_verifier.go *)

Module Verifier.

(** *** The fragment of [strings] and [encoding/hex] used by the verifier

    The functions of package [strings] are modelled on their byte-wise
    (ASCII) behaviour: white space is the set ['\t' '\n' '\v' '\f' '\r' ' ']
    and [ToLower] maps ['A'..'Z'] to ['a'..'z'].  Bytes above 127 are
    ordinary, unchanged characters here. *)

Definition asciiSpace (c : ascii) : bool :=
  let n := N_of_ascii c in
  ((9 <=? n) && (n <=? 13) || (n =? 32))%N.

Fixpoint trim_left (s : string) : string :=
  match s with
  | EmptyString => EmptyString
  | String c s' => if asciiSpace c then trim_left s' else s
  end.

Fixpoint trim_right (s : string) : string :=
  match s with
  | EmptyString => EmptyString
  | String c s' =>
      match trim_right s' with
      | EmptyString => if asciiSpace c then EmptyString else String c EmptyString
      | r => String c r
      end
  end.

Definition TrimSpace (s : string) : string := trim_right (trim_left s).

Definition starts_field (s : string) : bool :=
  match s with
  | EmptyString => false
  | String c _ => negb (asciiSpace c)
  end.

(** [strings.Fields]: the maximal runs of non-space characters. *)
Fixpoint Fields (s : string) : list string :=
  match s with
  | EmptyString => []
  | String c s' =>
      if asciiSpace c then Fields s'
      else if starts_field s' then
        match Fields s' with
        | t :: ts => String c t :: ts
        | [] => [String c EmptyString]
        end
      else String c EmptyString :: Fields s'
  end.

Definition lower_byte (c : ascii) : ascii :=
  let n := N_of_ascii c in
  if ((65 <=? n) && (n <=? 90))%N then ascii_of_N (n + 32) else c.

Fixpoint ToLower (s : string) : string :=
  match s with
  | EmptyString => EmptyString
  | String c s' => String (lower_byte c) (ToLower s')
  end.

Definition hextable : string := "0123456789abcdef".

Definition hex_digit (n : N) : ascii :=
  match String.get (N.to_nat n) hextable with
  | Some c => c
  | None => "0"%char
  end.

(** [hex.EncodeToString]: two digits per byte, [hextable[v>>4]] then
    [hextable[v&0x0f]]. *)
Fixpoint EncodeToString (src : list ascii) : string :=
  match src with
  | [] => EmptyString
  | v :: src' =>
      String (hex_digit (N.shiftr (N_of_ascii v) 4))
        (String (hex_digit (N.land (N_of_ascii v) 15)) (EncodeToString src'))
  end.

Definition fromHexChar (c : ascii) : option N :=
  let n := N_of_ascii c in
  if ((48 <=? n) && (n <=? 57))%N then Some (n - 48)%N
  else if ((97 <=? n) && (n <=? 102))%N then Some (n - 97 + 10)%N
  else if ((65 <=? n) && (n <=? 70))%N then Some (n - 65 + 10)%N
  else None.

(** [hex.DecodeString]: [None] stands for its two errors, an invalid
    byte and an odd length. *)
Fixpoint DecodeString (s : string) : option (list ascii) :=
  match s with
  | EmptyString => Some []
  | String _ EmptyString => None
  | String p (String q rest) =>
      match fromHexChar p, fromHexChar q with
      | Some a, Some b =>
          match DecodeString rest with
          | Some bytes => Some (ascii_of_N (N.lor (N.shiftl a 4) b) :: bytes)
          | None => None
          end
      | _, _ => None
      end
  end.

(** *** Errors of the verifier *)

Inductive error :=
| ErrReadFile                 (* failed to read SHA256 file *)
| ErrEmptyFile                (* SHA256 file is empty *)
| ErrInvalidFormat            (* SHA256 file has invalid format *)
| ErrHashLength (got : nat)   (* invalid SHA256 hash length: expected 64 *)
| ErrHashFormat               (* invalid SHA256 hash format *)
| ErrOpenOrRead               (* failed to open / read the data file *)
| ErrReadExpected (e : error) (* failed to read expected hash: ... *)
| ErrCompute (e : error)      (* failed to compute hash: ... *)
| ErrMismatch.                (* hash mismatch *)

(** [err.Error()]; the text of the underlying operating-system error is
    left out. *)
Fixpoint Error (e : error) : string :=
  match e with
  | ErrReadFile => "failed to read SHA256 file"
  | ErrEmptyFile => "SHA256 file is empty"
  | ErrInvalidFormat => "SHA256 file has invalid format"
  | ErrHashLength got =>
      "invalid SHA256 hash length: expected 64, got "
      +:+ NilZero.string_of_uint (Nat.to_uint got)
  | ErrHashFormat => "invalid SHA256 hash format"
  | ErrOpenOrRead => "failed to open file"
  | ErrReadExpected e' => "failed to read expected hash: " +:+ Error e'
  | ErrCompute e' => "failed to compute hash: " +:+ Error e'
  | ErrMismatch => "hash mismatch"
  end.

(** [parts[0]] is an index expression: out of range it panics. *)
Definition index0 (parts : list string) : exec string :=
  match parts with
  | [] => Panic
  | p :: _ => Ret p
  end.

(** [ReadSHA256File].  [file] is the result of [os.ReadFile]: [None]
    when the read fails, the bytes of the file otherwise. *)
Definition ReadSHA256File (file : option string) : exec (string * option error) :=
  match file with
  | None => Ret ("", Some ErrReadFile)
  | Some data =>
      let content := TrimSpace data in
      if String.eqb content "" then Ret ("", Some ErrEmptyFile)
      else
        let parts := Fields content in
        if Nat.eqb (List.length parts) 0 then Ret ("", Some ErrInvalidFormat)
        else
          match index0 parts with
          | Panic => Panic
          | Ret part0 =>
              let hash := ToLower part0 in
              if negb (Nat.eqb (String.length hash) 64)
              then Ret ("", Some (ErrHashLength (String.length hash)))
              else
                match DecodeString hash with
                | None => Ret ("", Some ErrHashFormat)
                | Some _ => Ret (hash, None)
                end
          end
  end.

(** [ComputeFileSHA256].  The SHA-256 function itself is the library's
    ([crypto/sha256]); [hashed] is [None] when opening or reading the data
    file fails and otherwise the digest [hasher.Sum(nil)] of its bytes. *)
Definition ComputeFileSHA256 (hashed : option (list ascii)) : string * option error :=
  match hashed with
  | None => ("", Some ErrOpenOrRead)
  | Some hashBytes => (EncodeToString hashBytes, None)
  end.

(** [VerifyFile] returns [(computed, expected, err)]. *)
Definition VerifyFile (file : option string) (hashed : option (list ascii))
    : exec (string * string * option error) :=
  match ReadSHA256File file with
  | Panic => Panic
  | Ret (_, Some e) => Ret ("", "", Some (ErrReadExpected e))
  | Ret (expectedHash, None) =>
      match ComputeFileSHA256 hashed with
      | (_, Some e) => Ret ("", expectedHash, Some (ErrCompute e))
      | (computedHash, None) =>
          if negb (String.eqb (ToLower computedHash) (ToLower expectedHash))
          then Ret (computedHash, expectedHash, Some ErrMismatch)
          else Ret (computedHash, expectedHash, None)
      end
  end.

Definition VerifyFileMatch (file : option string) (hashed : option (list ascii))
    : exec bool :=
  match VerifyFile file hashed with
  | Panic => Panic
  | Ret (_, _, err) => Ret (match err with None => true | Some _ => false end)
  end.

(** *** The words of the specification

    "The first whitespace-delimited token of the checksum file": skip the
    leading white space, then read up to the next white space. *)

Fixpoint take_field (s : string) : string :=
  match s with
  | EmptyString => EmptyString
  | String c s' => if asciiSpace c then EmptyString else String c (take_field s')
  end.

Definition first_token (content : string) : option string :=
  match trim_left content with
  | EmptyString => None
  | t => Some (take_field t)
  end.

End Verifier.

(** ** file_operations.go *)

Module FileOps.

(** The file system: the regular files by path, with their contents.
    [cross_device] says that the source folder and the destination
    folders are on different file systems, in which case [os.Rename]
    between them fails.  The destination folders exist (they are created
    at start-up) and permissions are not modelled, so a file operation
    fails exactly when the file it reads or removes is missing. *)
Record FS := mkFS {
  entries : gmap string string;
  cross_device : bool
}.

Definition with_entries (fs : FS) (m : gmap string string) : FS :=
  {| entries := m; cross_device := cross_device fs |}.

Inductive error :=
| ErrNotExist (path : string)
| ErrCrossDevice
| ErrCopy (e : error)              (* failed to copy file *)
| ErrDeleteSource (e : error)      (* failed to delete source file after copy *)
| ErrMoveVerified (e : error)      (* failed to move file to verified folder *)
| ErrMoveDataDLQ (e : error)       (* failed to move data file to DLQ *)
| ErrMoveSHA256DLQ (e : error)     (* failed to move SHA256 file to DLQ *)
| ErrDelete (path : string) (e : error).

(** [_, err := os.Stat(path); err == nil] *)
Definition Stat (fs : FS) (path : string) : bool :=
  match entries fs !! path with Some _ => true | None => false end.

(** [os.Rename]: an existing file at the new path is replaced. *)
Definition Rename (fs : FS) (oldpath newpath : string) : FS * option error :=
  if cross_device fs then (fs, Some ErrCrossDevice)
  else
    match entries fs !! oldpath with
    | None => (fs, Some (ErrNotExist oldpath))
    | Some data =>
        (with_entries fs (<[newpath := data]> (delete oldpath (entries fs))), None)
    end.

(** [os.Remove] *)
Definition Remove (fs : FS) (path : string) : FS * option error :=
  match entries fs !! path with
  | None => (fs, Some (ErrNotExist path))
  | Some _ => (with_entries fs (delete path (entries fs)), None)
  end.

(** [copyFile]: [os.Open] the source, [os.Create] the destination (an
    existing file is truncated), [io.Copy], [Sync], then copy the mode. *)
Definition copyFile (fs : FS) (sourcePath destPath : string) : FS * option error :=
  match entries fs !! sourcePath with
  | None => (fs, Some (ErrNotExist sourcePath))
  | Some data => (with_entries fs (<[destPath := data]> (entries fs)), None)
  end.

Definition moveFile (fs : FS) (sourcePath destPath : string) : FS * option error :=
  match Rename fs sourcePath destPath with
  | (fs1, None) => (fs1, None)
  | (fs1, Some _) =>
      match copyFile fs1 sourcePath destPath with
      | (fs2, Some e) => (fs2, Some (ErrCopy e))
      | (fs2, None) =>
          match Remove fs2 sourcePath with
          | (fs3, Some e) => (fs3, Some (ErrDeleteSource e))
          | (fs3, None) => (fs3, None)
          end
      end
  end.

(** [fmt.Sprintf("%d", n)] *)
Definition Sprintf_d (n : Z) : string := NilZero.string_of_int (Z.to_int n).

(** [getUniqueFilePath].  [pid] is the value of [os.Getpid()]. *)
Definition getUniqueFilePath (pid : Z) (dir filename : string) : string :=
  let ext := Filepath.Ext filename in
  let nameWithoutExt :=
    substring 0 (String.length filename - String.length ext) filename in
  let timestamp := Sprintf_d pid in
  let uniqueName := nameWithoutExt +:+ "_" +:+ timestamp +:+ ext in
  Filepath.Join dir uniqueName.

(** The destination chosen by [MoveToVerified] and, for each of its two
    files, by [MoveToDLQ]. *)
Definition destination (fs : FS) (pid : Z) (folder filename : string) : string :=
  let destPath := Filepath.Join folder filename in
  if Stat fs destPath then getUniqueFilePath pid folder filename else destPath.

Definition MoveToVerified (fs : FS) (pid : Z) (sourceFilePath verifiedFolder : string)
    : FS * (string * option error) :=
  let filename := Filepath.Base sourceFilePath in
  let destPath := destination fs pid verifiedFolder filename in
  match moveFile fs sourceFilePath destPath with
  | (fs', Some e) => (fs', ("", Some (ErrMoveVerified e)))
  | (fs', None) => (fs', (destPath, None))
  end.

Definition MoveToDLQ (fs : FS) (pid : Z) (dataFilePath sha256FilePath dlqFolder : string)
    : FS * option error :=
  let dataFilename := Filepath.Base dataFilePath in
  let dataDest := destination fs pid dlqFolder dataFilename in
  match moveFile fs dataFilePath dataDest with
  | (fs1, Some e) => (fs1, Some (ErrMoveDataDLQ e))
  | (fs1, None) =>
      let sha256Filename := Filepath.Base sha256FilePath in
      let sha256Dest := destination fs1 pid dlqFolder sha256Filename in
      match moveFile fs1 sha256FilePath sha256Dest with
      | (fs2, Some e) => (fs2, Some (ErrMoveSHA256DLQ e))
      | (fs2, None) => (fs2, None)
      end
  end.

Definition DeleteFile (fs : FS) (filePath : string) : FS * option error :=
  match Remove fs filePath with
  | (fs', Some e) => (fs', Some (ErrDelete filePath e))
  | (fs', None) => (fs', None)
  end.

Definition FileExists (fs : FS) (filePath : string) : bool := Stat fs filePath.

Definition DeleteBothFiles (fs : FS) (dataFilePath sha256FilePath : string)
    : FS * option error :=
  match DeleteFile fs dataFilePath with
  | (fs1, Some e) => (fs1, Some e)
  | (fs1, None) =>
      match DeleteFile fs1 sha256FilePath with
      | (fs2, Some e) => (fs2, Some e)
      | (fs2, None) => (fs2, None)
      end
  end.



End FileOps.

(** ** worker_pool.go and the coordinator of main.go *)

Module Pipeline.

Import Tracker Stats.

(** The fields of [WorkerPoolManager] that are fixed at construction,
    and the process id read by [getUniqueFilePath]. *)
Record WorkerPoolManager := mkWorkerPoolManager {
  queueSize : nat;          (* capacity of the buffered job channel *)
  verifiedFolder : string;
  dlqFolder : string;
  pid : Z
}.

(** [config.Spec.Verification] *)
Record VerificationConfig := mkVerificationConfig {
  RetryTimeout : Z;
  ConfigBufferSize : Z
}.

(** Unconditional writes to the error stream. *)
Inductive errline :=
| MoveToVerifiedFailed (dataFile : string) (e : FileOps.error)
| DeleteSHA256Failed (sha256File : string) (e : FileOps.error)
| MoveToDLQFailed (dataFile : string) (e : FileOps.error).

(** A row of verification.csv ([CreateCSVLogEntry]); the size in KB and
    the duration in seconds are floating-point renderings of [SizeBytes]
    and [EntryDuration]. *)
Record CSVLogEntry := mkCSVLogEntry {
  EntryTimestamp : Z;
  Filename : string;
  SHA256 : string;
  SizeBytes : Z;
  EntryDuration : Z
}.

Definition CreateCSVLogEntry (result : VerificationResult) : CSVLogEntry :=
  {| EntryTimestamp := Timestamp result;
     Filename := DataFile (JobFilePair (Job result));
     SHA256 := ComputedHash result;
     SizeBytes := DataSize (JobFilePair (Job result));
     EntryDuration := Duration result |}.

(** Everything the workers and the coordinator share.  The messages
    printed under a log level are not part of the state. *)
Record World := mkWorld {
  fsys : FileOps.FS;
  fileTracker : FileTracker;
  statsTracker : StatsTracker;
  jobQueue : list VerificationJob;
  errorStream : list errline;
  verificationCSV : list CSVLogEntry;
  statsCSV : list Statistics
}.

Definition set_fsys (w : World) (fs : FileOps.FS) : World :=
  mkWorld fs (fileTracker w) (statsTracker w) (jobQueue w) (errorStream w)
    (verificationCSV w) (statsCSV w).
Definition set_fileTracker (w : World) (ft : FileTracker) : World :=
  mkWorld (fsys w) ft (statsTracker w) (jobQueue w) (errorStream w)
    (verificationCSV w) (statsCSV w).
Definition set_statsTracker (w : World) (s : StatsTracker) : World :=
  mkWorld (fsys w) (fileTracker w) s (jobQueue w) (errorStream w)
    (verificationCSV w) (statsCSV w).
Definition set_jobQueue (w : World) (q : list VerificationJob) : World :=
  mkWorld (fsys w) (fileTracker w) (statsTracker w) q (errorStream w)
    (verificationCSV w) (statsCSV w).
Definition log_error (w : World) (l : errline) : World :=
  mkWorld (fsys w) (fileTracker w) (statsTracker w) (jobQueue w)
    (errorStream w ++ [l]) (verificationCSV w) (statsCSV w).
Definition LogVerification (w : World) (entry : CSVLogEntry) : World :=
  mkWorld (fsys w) (fileTracker w) (statsTracker w) (jobQueue w)
    (errorStream w) (verificationCSV w ++ [entry]) (statsCSV w).
Definition LogStats (w : World) (entry : Statistics) : World :=
  mkWorld (fsys w) (fileTracker w) (statsTracker w) (jobQueue w)
    (errorStream w) (verificationCSV w) (statsCSV w ++ [entry]).

(** [SubmitJob]: a non-blocking send on the buffered channel. *)
Definition SubmitJob (wpm : WorkerPoolManager) (w : World) (job : VerificationJob)
    : World * bool :=
  if (List.length (jobQueue w) <? queueSize wpm)%nat
  then (set_jobQueue w (jobQueue w ++ [job]), true)
  else (w, false).

Definition handleSuccess (wpm : WorkerPoolManager) (w : World)
    (result : VerificationResult) : World :=
  let filePair := JobFilePair (Job result) in
  match FileOps.MoveToVerified (fsys w) (pid wpm) (DataFilePath filePair)
          (verifiedFolder wpm) with
  | (fs1, (_, Some err)) =>
      let w1 := log_error (set_fsys w fs1) (MoveToVerifiedFailed (DataFile filePair) err) in
      set_statsTracker w1 (IncrementFailure (statsTracker w1) (Duration result))
  | (fs1, (newPath, None)) =>
      let w1 := set_fsys w fs1 in
      let w2 :=
        match FileOps.DeleteFile (fsys w1) (SHA256Path filePair) with
        | (fs2, Some err) =>
            log_error (set_fsys w1 fs2) (DeleteSHA256Failed (SHA256File filePair) err)
        | (fs2, None) => set_fsys w1 fs2
        end in
      let w3 := set_fileTracker w2 (Remove (fileTracker w2) (DataFile filePair)) in
      let w4 := set_statsTracker w3 (IncrementSuccess (statsTracker w3) (Duration result)) in
      LogVerification w4 (CreateCSVLogEntry result)
  end.

(** [handleFailure]; [now] is the reading of [time.Now()] in its test
    [time.Now().After(result.Job.RetryDeadline)]. *)
Definition handleFailure (wpm : WorkerPoolManager) (w : World)
    (result : VerificationResult) (now : Z) : World :=
  let filePair := JobFilePair (Job result) in
  if RetryDeadline (Job result) <? now then
    let w1 :=
      match FileOps.MoveToDLQ (fsys w) (pid wpm) (DataFilePath filePair)
              (SHA256Path filePair) (dlqFolder wpm) with
      | (fs1, Some err) =>
          log_error (set_fsys w fs1) (MoveToDLQFailed (DataFile filePair) err)
      | (fs1, None) => set_fsys w fs1
      end in
    let w2 := set_fileTracker w1 (Remove (fileTracker w1) (DataFile filePair)) in
    set_statsTracker w2 (IncrementFailure (statsTracker w2) (Duration result))
  else w.

(** [processJob].  [sha256] is the hash function of [crypto/sha256];
    [startTime], [endTime] and [now] are the three readings of the clock:
    at entry, after the verification, and in [handleFailure]. *)
Definition processJob (sha256 : string -> list ascii) (wpm : WorkerPoolManager)
    (w : World) (job : VerificationJob) (startTime endTime now : Z) : exec World :=
  let filePair := JobFilePair job in
  if negb (FileOps.FileExists (fsys w) (DataFilePath filePair))
     || negb (FileOps.FileExists (fsys w) (SHA256Path filePair))
  then Ret (set_fileTracker w (Remove (fileTracker w) (DataFile filePair)))
  else
    match Verifier.VerifyFile
            (FileOps.entries (fsys w) !! SHA256Path filePair)
            (sha256 <$> FileOps.entries (fsys w) !! DataFilePath filePair) with
    | Panic => Panic
    | Ret (computedHash, expectedHash, err) =>
        let result :=
          {| Job := job;
             Success := match err with None => true | Some _ => false end;
             ErrorMessage := match err with None => "" | Some e => Verifier.Error e end;
             ComputedHash := computedHash;
             ExpectedHash := expectedHash;
             Duration := endTime - startTime;
             Timestamp := endTime |} in
        if Success result then Ret (handleSuccess wpm w result)
        else Ret (handleFailure wpm w result now)
    end.

(** One iteration of [for job := range wpm.jobQueue] in a worker. *)
Definition worker_step (sha256 : string -> list ascii) (wpm : WorkerPoolManager)
    (w : World) (startTime endTime now : Z) : exec World :=
  match jobQueue w with
  | [] => Ret w
  | job :: rest => processJob sha256 wpm (set_jobQueue w rest) job startTime endTime now
  end.

(** The body of the coordinator's [case <-ticker.C]. *)
Definition coordinator_tick (config : VerificationConfig) (wpm : WorkerPoolManager)
    (w : World) : World :=
  let readyFiles := GetReadyForVerification (fileTracker w) in
  let w1 :=
    fold_left
      (fun w filePair =>
         let retryDeadline := FirstSeen filePair + RetryTimeout config in
         let job :=
           {| JobFilePair := filePair;
              RetryDeadline := retryDeadline;
              BufferSize := ConfigBufferSize config |} in
         fst (SubmitJob wpm w job))
      readyFiles w in
  let pendingCount := GetPendingCount (fileTracker w1) in
  set_statsTracker w1 (SetPendingCount (statsTracker w1) pendingCount).

(** The body of the coordinator's [case <-statsTicker.C]. *)
Definition coordinator_stats_tick (w : World) : World :=
  LogStats w (GetStatistics (statsTracker w)).

(** The events the coordinator's [select] waits for, and its loop over a
    list of them; the loop ends at [CtxDone]. *)
Inductive event :=
| TickerC
| StatsTickerC
| CtxDone.

Fixpoint coordinator (config : VerificationConfig) (wpm : WorkerPoolManager)
    (w : World) (evs : list event) : World :=
  match evs with
  | [] => w
  | TickerC :: evs' => coordinator config wpm (coordinator_tick config wpm w) evs'
  | StatsTickerC :: evs' => coordinator config wpm (coordinator_stats_tick w) evs'
  | CtxDone :: _ => w
  end.

(** The job the coordinator builds for a ready pair. *)
Definition job_of (config : VerificationConfig) (filePair : FilePair) : VerificationJob :=
  {| JobFilePair := filePair;
     RetryDeadline := FirstSeen filePair + RetryTimeout config;
     BufferSize := ConfigBufferSize config |}.

Definition GetQueueLength (w : World) : nat := List.length (jobQueue w).

Definition GetQueueCapacity (wpm : WorkerPoolManager) : nat := queueSize wpm.

End Pipeline.

(** ** file_scanner.go *)

Module Scanner.

Import Tracker.

(** [strings.HasSuffix] *)
Definition HasSuffix (s suffix : string) : bool :=
  (String.length suffix <=? String.length s)%nat
  && String.eqb
       (substring (String.length s - String.length suffix) (String.length suffix) s)
       suffix.

(** One entry of the listing returned by [os.ReadDir]: its name, whether it
    is a directory, and the size reported by [entry.Info()] ([None] when
    that call fails).  [seenData] and [seenChecksum] are the readings of
    the clock in the calls of [AddOrUpdateDataFile] and
    [AddOrUpdateSHA256File] that the entry causes. *)
Record DirEntry := mkDirEntry {
  Name : string;
  IsDir : bool;
  Info : option Z;
  seenData : Z;
  seenChecksum : Z
}.

(** The scanner.  [Match] is [filepath.Match] of the library: [Some b] for
    a well-formed pattern, [None] for [ErrBadPattern]. *)
Section WithMatch.

Variable Match : string -> string -> option bool.

Record FileScanner := mkFileScanner {
  sourceFolder : string;
  fileFilters : list string
}.

Fixpoint matches_any (filters : list string) (filename : string) : bool :=
  match filters with
  | [] => false
  | filter :: filters' =>
      match Match filter filename with
      | None => matches_any filters' filename      (* invalid pattern, skip *)
      | Some true => true
      | Some false => matches_any filters' filename
      end
  end.

Definition matchesFilter (fs : FileScanner) (filename : string) : bool :=
  matches_any (fileFilters fs) filename.

(** The body of the loop of [scan] for one entry.  [disk] answers the
    [os.Stat] of the checksum path. *)
Definition scan_entry (fs : FileScanner) (disk : FileOps.FS) (ft : FileTracker)
    (entry : DirEntry) : exec FileTracker :=
  if IsDir entry then Ret ft
  else
    let filename := Name entry in
    let fullPath := Filepath.Join (sourceFolder fs) filename in
    if HasSuffix filename ".sha256" then
      AddOrUpdateSHA256File ft fullPath (seenChecksum entry)
    else if matchesFilter fs filename then
      match Info entry with
      | None => Ret ft
      | Some fileSize =>
          let ft1 := AddOrUpdateDataFile ft fullPath fileSize (seenData entry) in
          let sha256Path := fullPath +:+ ".sha256" in
          if FileOps.Stat disk sha256Path then
            match AddOrUpdateSHA256File ft1 sha256Path (seenChecksum entry) with
            | Panic => Panic
            | Ret ft2 => Ret (MarkBothFilesPresent ft2 filename)
            end
          else Ret ft1
      end
    else Ret ft.

Fixpoint scan_entries (fs : FileScanner) (disk : FileOps.FS) (ft : FileTracker)
    (entries : list DirEntry) : exec FileTracker :=
  match entries with
  | [] => Ret ft
  | entry :: entries' =>
      match scan_entry fs disk ft entry with
      | Panic => Panic
      | Ret ft' => scan_entries fs disk ft' entries'
      end
  end.

(** [scan]: [listing] is the result of [os.ReadDir], [None] when it fails;
    the second component says whether [scan] returns an error. *)
Definition scan (fs : FileScanner) (disk : FileOps.FS) (ft : FileTracker)
    (listing : option (list DirEntry)) : exec (FileTracker * bool) :=
  match listing with
  | None => Ret (ft, true)
  | Some entries =>
      match scan_entries fs disk ft entries with
      | Panic => Panic
      | Ret ft' => Ret (ft', false)
      end
  end.

End WithMatch.

(** A name as a directory listing gives it: not empty, no separator. *)
Definition entry_name_ok (name : string) : bool :=
  negb (String.eqb name "") && negb (Filepath.has_separator name).

End Scanner.

(** ** Histories of registry calls *)

Module History.
Import Tracker.






(** [c] does not remove the pair [k], and if it records a data file, the
    path it records is not empty. *)
Definition keeps (k : string) (c : call) : bool :=
  match c with
  | RecordData path _ _ => negb (String.eqb path "")
  | RecordChecksum _ _ => true
  | RemoveKey k' => negb (String.eqb k' k)
  end.

(** [c] does not remove the pair [k]. *)
Definition not_removing (k : string) (c : call) : bool :=
  match c with
  | RemoveKey k' => negb (String.eqb k' k)
  | _ => true
  end.

End History.

(** ** Concrete inputs used in the examples below *)

Module Scenario.
Import Tracker Pipeline.

Definition second : Z := 1000000000.

Definition stats_calls : list Stats.call :=
  [Stats.CallIncrementSuccess 1500; Stats.CallIncrementFailure 20;
   Stats.CallSetPendingCount 3; Stats.CallReset 77;
   Stats.CallIncrementSuccess 9; Stats.CallIncrementSuccess 4;
   Stats.CallIncrementFailure 6; Stats.CallDecrementPending].

(** A registry with a retry timeout of five seconds. *)
Definition registry0 : FileTracker := NewFileTracker (5 * second).

Definition checksum_then_data : list call :=
  [RecordChecksum "/src/a.bin.sha256" 1; RecordData "/src/a.bin" 8 2].

Definition data_then_checksum : list call :=
  [RecordData "/src/a.bin" 8 1; RecordChecksum "/src/a.bin.sha256" 2].

Definition checksum_once : list call :=
  [RecordChecksum "/src/a.bin.sha256" 1].

Definition checksum_twice : list call :=
  [RecordChecksum "/src/a.bin.sha256" 1; RecordChecksum "/src/a.bin.sha256" 2].



Definition pool : WorkerPoolManager :=
  {| queueSize := 4; verifiedFolder := "/verified"; dlqFolder := "/dlq"; pid := 4242 |}.

Definition config : VerificationConfig :=
  {| RetryTimeout := 5 * second; ConfigBufferSize := 65536 |}.

Definition world_of (fs : gmap string string) (ft : FileTracker) : World :=
  {| fsys := {| FileOps.entries := fs; FileOps.cross_device := false |};
     fileTracker := ft;
     statsTracker := Stats.NewStatsTracker 0;
     jobQueue := [];
     errorStream := [];
     verificationCSV := [];
     statsCSV := [] |}.

(** Scenario C: only [c.bin] is ever scanned, first at time 0. *)
Definition world_C : World :=
  world_of {[ "/src/c.bin" := "payload" ]}
    (AddOrUpdateDataFile registry0 "/src/c.bin" 7 0).

Definition pair_b : FilePair :=
  {| DataFile := "b.bin"; DataFilePath := "/src/b.bin";
     SHA256File := "b.bin.sha256"; SHA256Path := "/src/b.bin.sha256";
     DataSize := 4; FirstSeen := 0; HasBothFiles := true |}.

(** Scenario B: [b.bin] and a checksum file that does not match it. *)
Definition world_B : World :=
  world_of {[ "/src/b.bin" := "data"; "/src/b.bin.sha256" := "mismatch" ]}
    (with_files registry0 {[ "b.bin" := pair_b ]}).

Definition job_b : VerificationJob :=
  {| JobFilePair := pair_b;
     RetryDeadline := FirstSeen pair_b + RetryTimeout config;
     BufferSize := ConfigBufferSize config |}.

Definition failed_b : VerificationResult :=
  {| Job := job_b; Success := false; ErrorMessage := "hash mismatch";
     ComputedHash := "00"; ExpectedHash := "11";
     Duration := 1000; Timestamp := 3 * second |}.

Definition verified_b : VerificationResult :=
  {| Job := job_b; Success := true; ErrorMessage := "";
     ComputedHash := "00"; ExpectedHash := "00";
     Duration := 1000; Timestamp := 3 * second |}.

(** As [world_B], but the data file has left the source folder before the
    worker moves it. *)
Definition world_B_data_gone : World :=
  world_of {[ "/src/b.bin.sha256" := "checksum" ]}
    (with_files registry0 {[ "b.bin" := pair_b ]}).

(** As [world_B], but the checksum file has left the source folder. *)
Definition world_B_checksum_gone : World :=
  world_of {[ "/src/b.bin" := "data" ]}
    (with_files registry0 {[ "b.bin" := pair_b ]}).

(** Scenario D, twice in one process: the verified folder holds an
    [a.bin]; a first [/src/a.bin] is moved there, then a second one. *)
Definition fs_D : FileOps.FS :=
  {| FileOps.entries := {[ "/verified/a.bin" := "old"; "/src/a.bin" := "first" ]};
     FileOps.cross_device := false |}.

Definition fs_D_after_first_move : FileOps.FS :=
  fst (FileOps.MoveToVerified fs_D 4242 "/src/a.bin" "/verified").

Definition fs_D_second_arrival : FileOps.FS :=
  FileOps.with_entries fs_D_after_first_move
    (<["/src/a.bin" := "second"]> (FileOps.entries fs_D_after_first_move)).

Definition fs_D_after_second_move : FileOps.FS :=
  fst (FileOps.MoveToVerified fs_D_second_arrival 4242 "/src/a.bin" "/verified").

(** A digest of 32 bytes [0xab], and checksum files for it. *)
Definition digest_ab : list ascii := repeat (ascii_of_nat 171) 32.

Definition hex_ab_upper : string :=
  "ABABABABABABABABABABABABABABABABABABABABABABABABABABABABABABABAB".

Definition newline : string := String (ascii_of_nat 10) EmptyString.

Definition checksum_file_ab : string :=
  "  " +:+ hex_ab_upper +:+ "  a.bin" +:+ newline.

Definition checksum_file_short : string := "abab  a.bin" +:+ newline.

Definition checksum_file_not_hex : string :=
  "zzABABABABABABABABABABABABABABABABABABABABABABABABABABABABABABAB".

(** A registry holding the complete pair [b.bin] and the lone data file
    [c.bin]. *)
Definition registry_bc : FileTracker :=
  AddOrUpdateDataFile (with_files registry0 {[ "b.bin" := pair_b ]}) "/src/c.bin" 7 0.

Definition later_sightings_of_b : list call :=
  [RecordData "/src/b.bin" 5 (40 * second);
   RecordChecksum "/src/b.bin.sha256" (41 * second);
   RemoveKey "c.bin";
   RecordData "/src/b.bin" 6 (90 * second)].

(** A pass of the scanner over a source folder.  [match_star_bin] stands
    for [filepath.Match] on the one pattern used here, ["*.bin"]. *)
Definition match_star_bin (pattern name : string) : option bool :=
  if String.eqb pattern "*.bin" then Some (Scanner.HasSuffix name ".bin") else None.

Definition scanner_src : Scanner.FileScanner :=
  {| Scanner.sourceFolder := "/src"; Scanner.fileFilters := ["[bad"; "*.bin"] |}.

Definition entry_a_bin : Scanner.DirEntry :=
  {| Scanner.Name := "a.bin"; Scanner.IsDir := false; Scanner.Info := Some 8;
     Scanner.seenData := 20; Scanner.seenChecksum := 21 |}.

Definition listing_src : list Scanner.DirEntry :=
  [ entry_a_bin;
    {| Scanner.Name := "a.bin.sha256"; Scanner.IsDir := false; Scanner.Info := Some 70;
       Scanner.seenData := 22; Scanner.seenChecksum := 23 |};
    {| Scanner.Name := "archive"; Scanner.IsDir := true; Scanner.Info := Some 4096;
       Scanner.seenData := 24; Scanner.seenChecksum := 25 |};
    {| Scanner.Name := "notes.txt"; Scanner.IsDir := false; Scanner.Info := Some 12;
       Scanner.seenData := 26; Scanner.seenChecksum := 27 |};
    {| Scanner.Name := "x.sha256"; Scanner.IsDir := false; Scanner.Info := None;
       Scanner.seenData := 28; Scanner.seenChecksum := 29 |} ].

Definition disk_src : FileOps.FS :=
  {| FileOps.entries :=
       {[ "/src/a.bin" := "payload!"; "/src/a.bin.sha256" := "checksum";
          "/src/notes.txt" := "hello"; "/src/x.sha256" := "orphan" ]};
     FileOps.cross_device := false |}.

(** The registry in which the checksum of [a.bin] was seen before its data. *)
Definition registry_checksum_first : FileTracker :=
  state_after registry0 checksum_once.

(** Scenario A in the registry: [a.bin] with its checksum, both on disk. *)
Definition pair_a : FilePair :=
  {| DataFile := "a.bin"; DataFilePath := "/src/a.bin";
     SHA256File := "a.bin.sha256"; SHA256Path := "/src/a.bin.sha256";
     DataSize := 8; FirstSeen := 1; HasBothFiles := true |}.

Definition world_A : World :=
  world_of {[ "/src/a.bin" := "payload!"; "/src/a.bin.sha256" := checksum_file_ab ]}
    (with_files registry0 {[ "a.bin" := pair_a ]}).

Definition job_a : VerificationJob := job_of config pair_a.



End Scenario.

(** * Properties *)

(** ** Path helpers on examples *)

Example base_examples :
  Filepath.Base "/src/data.zip.sha256" = "data.zip.sha256"
  /\ Filepath.Base "/src/dir//" = "dir"
  /\ Filepath.Base "" = "."
  /\ Filepath.Base "///" = "/"
  /\ Filepath.Base "plain" = "plain"
  /\ Filepath.Ext "a.tar.gz" = ".gz"
  /\ Filepath.Ext "a.b/c" = ""
  /\ Filepath.Ext "noext" = ""
  /\ Filepath.Ext ".sha256" = ".sha256"
  /\ Filepath.Join "/verified" "a.bin" = "/verified/a.bin".
Proof. vm_compute. repeat split. Qed.

(** ** Statistics *)

Section StatsFacts.
Import Stats.

Lemma wrap64_small (z : Z) : - 2 ^ 63 <= z < 2 ^ 63 -> wrap64 z = z.
Proof.
  intros Hz. unfold wrap64.
  rewrite Z.mod_small by lia. lia.
Qed.

(** One call keeps the counters consistent as long as the processed
    counter is below the largest [int64]. *)
Lemma step_consistent (s : StatsTracker) (c : call) (n : Z) :
  counters_consistent s -> totalProcessed s <= n -> n + 1 < 2 ^ 63 ->
  counters_consistent (step s c) /\ totalProcessed (step s c) <= n + 1.
Proof.
  intros (Heq & Ht & Hs & Hf) Hn Hbound.
  destruct c; unfold counters_consistent; simpl.
  - rewrite !wrap64_small by lia. lia.
  - rewrite !wrap64_small by lia. lia.
  - lia.
  - lia.
  - unfold DecrementPending. destruct (0 <? pendingCount s); simpl; lia.
  - lia.
Qed.

Lemma run_consistent (cs : list call) :
  forall (s : StatsTracker) (n : Z),
    counters_consistent s -> totalProcessed s <= n ->
    n + Z.of_nat (length cs) < 2 ^ 63 ->
    counters_consistent (run s cs).
Proof.
  induction cs as [|c cs IH]; intros s n Hs Hn Hlen; simpl in *.
  - exact Hs.
  - destruct (step_consistent s c n Hs Hn) as [Hs' Hn']; [lia|].
    apply (IH (step s c) (n + 1)); [exact Hs'|exact Hn'|lia].
Qed.

Lemma new_consistent (now : Z) : counters_consistent (NewStatsTracker now).
Proof. unfold counters_consistent; simpl; lia. Qed.

End StatsFacts.

(** C10.  Starting from [NewStatsTracker], after any sequence of calls of
    the mutating methods ([IncrementSuccess], [IncrementFailure],
    [SetPendingCount], [IncrementPending], [DecrementPending], [Reset]) that
    is shorter than 2^63 (so that no [int64] counter can have wrapped), the
    tracker satisfies [totalProcessed = successCount + failureCount] with
    the three counters non-negative, and the snapshot returned by
    [GetStatistics] satisfies [TotalProcessed = SuccessCount + FailureCount]. *)
Theorem stats_total_is_success_plus_failure (now : Z) (cs : list Stats.call) :
  Z.of_nat (length cs) < 2 ^ 63 ->
  Stats.counters_consistent (Stats.run (Stats.NewStatsTracker now) cs)
  /\ TotalProcessed (Stats.GetStatistics (Stats.run (Stats.NewStatsTracker now) cs))
     = SuccessCount (Stats.GetStatistics (Stats.run (Stats.NewStatsTracker now) cs))
       + FailureCount (Stats.GetStatistics (Stats.run (Stats.NewStatsTracker now) cs)).
Proof.
  intros Hlen.
  assert (H : Stats.counters_consistent (Stats.run (Stats.NewStatsTracker now) cs)).
  { apply (run_consistent cs _ 0).
    - apply new_consistent.
    - simpl; lia.
    - lia. }
  split; [exact H|].
  destruct H as (Heq & _). simpl. exact Heq.
Qed.

Lemma stats_total_is_success_plus_failure_witness :
  Z.of_nat (length Scenario.stats_calls) < 2 ^ 63
  /\ TotalProcessed (Stats.GetStatistics (Stats.run (Stats.NewStatsTracker 0) Scenario.stats_calls))
     = SuccessCount (Stats.GetStatistics (Stats.run (Stats.NewStatsTracker 0) Scenario.stats_calls))
       + FailureCount (Stats.GetStatistics (Stats.run (Stats.NewStatsTracker 0) Scenario.stats_calls)).
Proof.
  split.
  - vm_compute. reflexivity.
  - apply (stats_total_is_success_plus_failure 0 Scenario.stats_calls).
    vm_compute. reflexivity.
Defined.

Example stats_example_values :
  Stats.GetStatistics (Stats.run (Stats.NewStatsTracker 0) Scenario.stats_calls)
  = {| TotalProcessed := 3; SuccessCount := 2; FailureCount := 1;
       PendingCount := 0; TotalDuration := 19; StartTime := 77 |}.
Proof. vm_compute. reflexivity. Qed.

(** ** The pair registry *)

Section TrackerFacts.
Import Tracker History.

Lemma run_app (cs1 cs2 : list call) :
  forall ft, run ft (cs1 ++ cs2) =
    match run ft cs1 with
    | Panic => Panic
    | Ret ft' => run ft' cs2
    end.
Proof.
  induction cs1 as [|c cs1 IH]; intros ft; simpl.
  - reflexivity.
  - destruct (step ft c); [apply IH|reflexivity].
Qed.

Lemma derive_data_file_Ret (sha256File k : string) :
  derive_data_file sha256File = Ret k ->
  (7 <= String.length sha256File)%nat
  /\ k = substring 0 (String.length sha256File - 7) sha256File.
Proof.
  unfold derive_data_file.
  destruct (Z.ltb_spec (Z.of_nat (String.length sha256File) - 7) 0) as [Hlt|Hge];
    [discriminate|].
  intros [= <-]. split; [lia|].
  f_equal. lia.
Qed.

Lemma derive_data_file_Panic (sha256File : string) :
  (String.length sha256File < 7)%nat -> derive_data_file sha256File = Panic.
Proof.
  intros Hlt. unfold derive_data_file.
  destruct (Z.ltb_spec (Z.of_nat (String.length sha256File) - 7) 0); [reflexivity|lia].
Qed.

(** A checksum path that yields a key is not the empty path. *)
Lemma checksum_path_nonempty (path k : string) :
  derive_data_file (Filepath.Base path) = Ret k -> path <> "".
Proof.
  intros H ->. vm_compute in H. discriminate.
Qed.

Lemma In_all_pairs (ft : FileTracker) (p : FilePair) :
  In p (all_pairs ft) <-> exists k, files ft !! k = Some p.
Proof.
  unfold all_pairs. rewrite <- list_elem_of_In, list_elem_of_fmap.
  split.
  - intros ([k p'] & -> & Hin). exists k. by apply elem_of_map_to_list in Hin.
  - intros (k & Hk). exists (k, p). split; [done|]. by apply elem_of_map_to_list.
Qed.

Lemma In_GetReadyForVerification (ft : FileTracker) (p : FilePair) :
  In p (GetReadyForVerification ft)
  <-> exists k, files ft !! k = Some p /\ is_ready p = true.
Proof.
  unfold GetReadyForVerification. rewrite filter_In, In_all_pairs.
  split.
  - intros [(k & Hk) Hr]. eauto.
  - intros (k & Hk & Hr). eauto.
Qed.

Lemma In_GetExpiredFiles (ft : FileTracker) (now : Z) (p : FilePair) :
  In p (GetExpiredFiles ft now)
  <-> exists k, files ft !! k = Some p /\ retryTimeout ft <= now - FirstSeen p.
Proof.
  unfold GetExpiredFiles, is_expired. rewrite filter_In, In_all_pairs.
  rewrite Z.leb_le.
  split.
  - intros [(k & Hk) Hr]. eauto.
  - intros (k & Hk & Hr). eauto.
Qed.

Lemma is_ready_spec (p : FilePair) :
  is_ready p = true
  <-> HasBothFiles p = true /\ DataFilePath p <> "" /\ SHA256Path p <> "".
Proof.
  unfold is_ready.
  rewrite !andb_true_iff, !negb_true_iff, !String.eqb_neq. tauto.
Qed.

(** What [AddOrUpdateDataFile] stores under each key. *)
Lemma lookup_AddOrUpdateDataFile (ft : FileTracker) (path : string) (size now : Z)
    (k : string) :
  files (AddOrUpdateDataFile ft path size now) !! k =
    if decide (Filepath.Base path = k) then
      Some match files ft !! k with
           | Some pr =>
               {| DataFile := DataFile pr; DataFilePath := path;
                  SHA256File := SHA256File pr; SHA256Path := SHA256Path pr;
                  DataSize := size; FirstSeen := FirstSeen pr;
                  HasBothFiles := HasBothFiles pr |}
           | None =>
               {| DataFile := k; DataFilePath := path;
                  SHA256File := ""; SHA256Path := "";
                  DataSize := size; FirstSeen := now;
                  HasBothFiles := false |}
           end
    else files ft !! k.
Proof.
  unfold AddOrUpdateDataFile.
  destruct (decide (Filepath.Base path = k)) as [<-|Hne].
  - destruct (files ft !! Filepath.Base path); simpl; by rewrite lookup_insert_eq.
  - destruct (files ft !! Filepath.Base path); simpl; by rewrite lookup_insert_ne.
Qed.

(** What [AddOrUpdateSHA256File] stores under each key. *)
Lemma lookup_AddOrUpdateSHA256File (ft ft' : FileTracker) (path : string) (now : Z)
    (k' k : string) :
  derive_data_file (Filepath.Base path) = Ret k' ->
  AddOrUpdateSHA256File ft path now = Ret ft' ->
  files ft' !! k =
    if decide (k' = k) then
      Some match files ft !! k with
           | Some pr =>
               {| DataFile := DataFile pr; DataFilePath := DataFilePath pr;
                  SHA256File := Filepath.Base path; SHA256Path := path;
                  DataSize := DataSize pr; FirstSeen := FirstSeen pr;
                  HasBothFiles := true |}
           | None =>
               {| DataFile := k; DataFilePath := "";
                  SHA256File := Filepath.Base path; SHA256Path := path;
                  DataSize := 0; FirstSeen := now;
                  HasBothFiles := false |}
           end
    else files ft !! k.
Proof.
  unfold AddOrUpdateSHA256File. intros ->.
  destruct (decide (k' = k)) as [<-|Hne].
  - destruct (files ft !! k'); intros [= <-]; simpl; by rewrite lookup_insert_eq.
  - destruct (files ft !! k'); intros [= <-]; simpl; by rewrite lookup_insert_ne.
Qed.

Lemma AddOrUpdateSHA256File_Ret (ft : FileTracker) (path : string) (now : Z) (k : string) :
  derive_data_file (Filepath.Base path) = Ret k ->
  exists ft', AddOrUpdateSHA256File ft path now = Ret ft'.
Proof.
  unfold AddOrUpdateSHA256File. intros ->.
  destruct (files ft !! k); eauto.
Qed.

Lemma AddOrUpdateSHA256File_inv (ft ft' : FileTracker) (path : string) (now : Z) :
  AddOrUpdateSHA256File ft path now = Ret ft' ->
  exists k, derive_data_file (Filepath.Base path) = Ret k.
Proof.
  unfold AddOrUpdateSHA256File.
  destruct (derive_data_file (Filepath.Base path)) as [k|]; [eauto|discriminate].
Qed.

End TrackerFacts.

Section TrackerInvariants.
Import Tracker History.

Lemma run_invariant (P : FileTracker -> Prop) :
  (forall ft c ft', P ft -> step ft c = Ret ft' -> P ft') ->
  forall cs ft ft', P ft -> run ft cs = Ret ft' -> P ft'.
Proof.
  intros Hstep. induction cs as [|c cs IH]; intros ft ft' HP Hrun; simpl in Hrun.
  - by injection Hrun as <-.
  - destruct (step ft c) as [ft1|] eqn:E; [|discriminate].
    eapply IH; [|exact Hrun]. eapply Hstep; eauto.
Qed.

(** A pair flagged both-present has a checksum path. *)
Definition flagged_have_checksum (ft : FileTracker) : Prop :=
  forall k p, files ft !! k = Some p -> HasBothFiles p = true -> SHA256Path p <> "".

Lemma step_flagged_have_checksum (ft : FileTracker) (c : call) (ft' : FileTracker) :
  flagged_have_checksum ft -> step ft c = Ret ft' -> flagged_have_checksum ft'.
Proof.
  intros Hinv Hstep k p Hk Hflag.
  destruct c as [path size now|path now|key]; simpl in Hstep.
  - injection Hstep as <-.
    rewrite lookup_AddOrUpdateDataFile in Hk.
    destruct (decide (Filepath.Base path = k)) as [_|_]; [|eauto].
    destruct (files ft !! k) as [pr|] eqn:E; injection Hk as <-; simpl in *;
      [eauto|discriminate].
  - destruct (AddOrUpdateSHA256File_inv _ _ _ _ Hstep) as [k' Hk'].
    rewrite (lookup_AddOrUpdateSHA256File _ _ _ _ _ k Hk' Hstep) in Hk.
    destruct (decide (k' = k)) as [_|_]; [|eauto].
    destruct (files ft !! k) as [pr|] eqn:E; injection Hk as <-; simpl in *;
      [|discriminate].
    by eapply checksum_path_nonempty.
  - injection Hstep as <-. simpl in Hk.
    destruct (decide (key = k)) as [->|Hne].
    + by rewrite lookup_delete_eq in Hk.
    + rewrite lookup_delete_ne in Hk by done. eauto.
Qed.

(** Once ready, a pair stays ready through every call that neither removes
    it nor records an empty data path. *)
Definition ready_at (k : string) (ft : FileTracker) : Prop :=
  exists p, files ft !! k = Some p /\ is_ready p = true.

Lemma step_ready_at (k : string) (ft : FileTracker) (c : call) (ft' : FileTracker) :
  keeps k c = true -> ready_at k ft -> step ft c = Ret ft' -> ready_at k ft'.
Proof.
  intros Hkeep (p & Hp & Hr) Hstep.
  apply is_ready_spec in Hr as (Hflag & Hdata & Hsha).
  unfold ready_at.
  destruct c as [path size now|path now|key]; simpl in Hstep, Hkeep.
  - injection Hstep as <-.
    rewrite lookup_AddOrUpdateDataFile.
    destruct (decide (Filepath.Base path = k)) as [_|_]; [|].
    + rewrite Hp. eexists; split; [reflexivity|].
      apply is_ready_spec; simpl. apply negb_true_iff, String.eqb_neq in Hkeep. done.
    + exists p. split; [done|]. by apply is_ready_spec.
  - destruct (AddOrUpdateSHA256File_inv _ _ _ _ Hstep) as [k' Hk'].
    rewrite (lookup_AddOrUpdateSHA256File _ _ _ _ _ k Hk' Hstep).
    destruct (decide (k' = k)) as [_|_].
    + rewrite Hp. eexists; split; [reflexivity|].
      apply is_ready_spec; simpl. split; [done|]. split; [done|].
      by eapply checksum_path_nonempty.
    + exists p. split; [done|]. by apply is_ready_spec.
  - injection Hstep as <-. simpl.
    apply negb_true_iff, String.eqb_neq in Hkeep.
    rewrite lookup_delete_ne by done.
    exists p. split; [done|]. by apply is_ready_spec.
Qed.







End TrackerInvariants.

(** C9.  [AddOrUpdateSHA256File] derives the key by slicing the last seven
    bytes off the base name, whatever they are: when the base name of the
    path is shorter than seven bytes the slice is out of range and the call
    panics; otherwise the call returns and tracks the pair under the base
    name without its last seven bytes; in particular a file named exactly
    [.sha256] is tracked under the empty key. *)
Theorem sha256_key_drops_last_seven_bytes
    (ft : Tracker.FileTracker) (path : string) (now : Z) :
  ((String.length (Filepath.Base path) < 7)%nat ->
     Tracker.AddOrUpdateSHA256File ft path now = Panic)
  /\ ((7 <= String.length (Filepath.Base path))%nat ->
        exists ft',
          Tracker.AddOrUpdateSHA256File ft path now = Ret ft'
          /\ is_Some (Tracker.files ft' !!
                        substring 0 (String.length (Filepath.Base path) - 7)
                          (Filepath.Base path)))
  /\ (exists ft',
        Tracker.AddOrUpdateSHA256File ft ".sha256" now = Ret ft'
        /\ is_Some (Tracker.files ft' !! "")).
Proof.
  assert (Hlong : forall q, (7 <= String.length (Filepath.Base q))%nat ->
            exists ft',
              Tracker.AddOrUpdateSHA256File ft q now = Ret ft'
              /\ is_Some (Tracker.files ft' !!
                            substring 0 (String.length (Filepath.Base q) - 7)
                              (Filepath.Base q))).
  { intros q Hq.
    assert (Hk : Tracker.derive_data_file (Filepath.Base q)
                 = Ret (substring 0 (String.length (Filepath.Base q) - 7) (Filepath.Base q))).
    { unfold Tracker.derive_data_file.
      destruct (Z.ltb_spec (Z.of_nat (String.length (Filepath.Base q)) - 7) 0); [lia|].
      do 2 f_equal. lia. }
    destruct (AddOrUpdateSHA256File_Ret ft q now _ Hk) as [ft' Hft'].
    exists ft'. split; [exact Hft'|].
    rewrite (lookup_AddOrUpdateSHA256File _ _ _ _ _ _ Hk Hft').
    rewrite decide_True by reflexivity. eauto. }
  split; [|split].
  - intros Hshort. unfold Tracker.AddOrUpdateSHA256File.
    by rewrite derive_data_file_Panic.
  - apply Hlong.
  - apply (Hlong ".sha256"). vm_compute. lia.
Qed.

Lemma sha256_key_drops_last_seven_bytes_witness :
  (String.length (Filepath.Base "/src/a.sha") < 7)%nat
  /\ Tracker.AddOrUpdateSHA256File Scenario.registry0 "/src/a.sha" 0 = Panic.
Proof.
  split.
  - vm_compute. lia.
  - apply (sha256_key_drops_last_seven_bytes Scenario.registry0 "/src/a.sha" 0).
    vm_compute. lia.
Defined.

(** The seven bytes need not be [.sha256]: a path handed to
    [AddOrUpdateSHA256File] is keyed by whatever precedes them. *)
Example sha256_key_examples :
  Tracker.derive_data_file (Filepath.Base "/src/data.zip.sha256") = Ret "data.zip"
  /\ Tracker.derive_data_file (Filepath.Base "/src/.sha256") = Ret ""
  /\ Tracker.derive_data_file (Filepath.Base "/src/notes.txt") = Ret "no"
  /\ Tracker.derive_data_file (Filepath.Base "/src/sha256") = Panic
  /\ Tracker.derive_data_file (Filepath.Base "") = Panic.
Proof. vm_compute. repeat split. Qed.

(** The claim of C2 fails as stated: after [recordChecksum] then
    [recordData] for the same pair, both paths are known and non-empty and
    the pair is not both-present. *)
Lemma both_paths_known_but_not_both_present :
  Tracker.lookup_after Scenario.registry0 Scenario.checksum_then_data "a.bin"
  = Ret (Some {| DataFile := "a.bin"; DataFilePath := "/src/a.bin";
                 SHA256File := "a.bin.sha256"; SHA256Path := "/src/a.bin.sha256";
                 DataSize := 8; FirstSeen := 1; HasBothFiles := false |}).
Proof. vm_compute. reflexivity. Qed.

(** C2, amended.  After any sequence of registry calls, a pair that is
    both-present has a non-empty checksum path; [recordChecksum] for a pair
    whose data path is already known and non-empty makes it both-present,
    with both paths non-empty; and [recordData] never sets the flag: a pair
    is both-present after it only if it was before. *)
Theorem both_present_reconciliation :
  (forall rt cs ft k p,
      Tracker.run (Tracker.NewFileTracker rt) cs = Ret ft ->
      Tracker.files ft !! k = Some p ->
      HasBothFiles p = true -> SHA256Path p <> "")
  /\ (forall ft k p path now,
        Tracker.files ft !! k = Some p ->
        DataFilePath p <> "" ->
        Tracker.derive_data_file (Filepath.Base path) = Ret k ->
        exists ft' p',
          Tracker.AddOrUpdateSHA256File ft path now = Ret ft'
          /\ Tracker.files ft' !! k = Some p'
          /\ HasBothFiles p' = true
          /\ DataFilePath p' <> "" /\ SHA256Path p' <> "")
  /\ (forall ft path size now k p',
        Tracker.files (Tracker.AddOrUpdateDataFile ft path size now) !! k = Some p' ->
        HasBothFiles p' = true ->
        exists p, Tracker.files ft !! k = Some p /\ HasBothFiles p = true).
Proof.
  split; [|split].
  - intros rt cs ft k p Hrun.
    revert k p.
    apply (run_invariant flagged_have_checksum step_flagged_have_checksum
             cs (Tracker.NewFileTracker rt) ft); [|exact Hrun].
    intros k p Hk. simpl in Hk. by rewrite lookup_empty in Hk.
  - intros ft k p path now Hk Hdata Hkey.
    destruct (AddOrUpdateSHA256File_Ret ft path now k Hkey) as [ft' Hft'].
    exists ft'. eexists. split; [exact Hft'|].
    rewrite (lookup_AddOrUpdateSHA256File _ _ _ _ _ k Hkey Hft').
    rewrite decide_True by reflexivity. rewrite Hk.
    split; [reflexivity|]. simpl. split; [done|]. split; [done|].
    by eapply checksum_path_nonempty.
  - intros ft path size now k p' Hk Hflag.
    rewrite lookup_AddOrUpdateDataFile in Hk.
    destruct (decide (Filepath.Base path = k)) as [_|_]; [|eauto].
    destruct (Tracker.files ft !! k) as [pr|]; injection Hk as <-; simpl in Hflag;
      [eauto|discriminate].
Qed.

Lemma both_present_reconciliation_witness :
  exists ft' p',
    Tracker.AddOrUpdateSHA256File
      (Tracker.AddOrUpdateDataFile Scenario.registry0 "/src/a.bin" 8 1)
      "/src/a.bin.sha256" 2 = Ret ft'
    /\ Tracker.files ft' !! "a.bin" = Some p'
    /\ HasBothFiles p' = true
    /\ DataFilePath p' <> "" /\ SHA256Path p' <> "".
Proof.
  apply (proj1 (proj2 both_present_reconciliation)
           (Tracker.AddOrUpdateDataFile Scenario.registry0 "/src/a.bin" 8 1)
           "a.bin"
           {| DataFile := "a.bin"; DataFilePath := "/src/a.bin";
              SHA256File := ""; SHA256Path := "";
              DataSize := 8; FirstSeen := 1; HasBothFiles := false |}
           "/src/a.bin.sha256" 2).
  - vm_compute. reflexivity.
  - simpl. discriminate.
  - vm_compute. reflexivity.
Defined.




Example data_then_checksum_is_listed :
  Tracker.ready_after Scenario.registry0 Scenario.data_then_checksum
  = Ret [ {| DataFile := "a.bin"; DataFilePath := "/src/a.bin";
             SHA256File := "a.bin.sha256"; SHA256Path := "/src/a.bin.sha256";
             DataSize := 8; FirstSeen := 1; HasBothFiles := true |} ].
Proof. vm_compute. reflexivity. Qed.

(** [recordData] is idempotent: a second call with the same path and size
    changes nothing, whatever the clock says. *)
Lemma AddOrUpdateDataFile_idempotent (ft : Tracker.FileTracker) (path : string)
    (size now now' : Z) :
  Tracker.AddOrUpdateDataFile (Tracker.AddOrUpdateDataFile ft path size now) path size now'
  = Tracker.AddOrUpdateDataFile ft path size now.
Proof.
  unfold Tracker.AddOrUpdateDataFile at 1.
  rewrite lookup_AddOrUpdateDataFile, decide_True by reflexivity.
  unfold Tracker.AddOrUpdateDataFile, Tracker.with_files.
  destruct (Tracker.files ft !! Filepath.Base path) as [pr|]; simpl;
    by rewrite insert_insert_eq.
Qed.

(** C6.  [recordChecksum] is not idempotent on a pair that is not yet
    tracked: on the registry that has never seen [a.bin], one call with
    [/src/a.bin.sha256] leaves the pair not both-present, and a second call
    with the same argument makes it both-present although no data file was
    ever recorded; the ready list is empty in both cases. *)
Theorem recordChecksum_twice_sets_both_present :
  Tracker.lookup_after Scenario.registry0 Scenario.checksum_once "a.bin"
  = Ret (Some {| DataFile := "a.bin"; DataFilePath := "";
                 SHA256File := "a.bin.sha256"; SHA256Path := "/src/a.bin.sha256";
                 DataSize := 0; FirstSeen := 1; HasBothFiles := false |})
  /\ Tracker.lookup_after Scenario.registry0 Scenario.checksum_twice "a.bin"
     = Ret (Some {| DataFile := "a.bin"; DataFilePath := "";
                    SHA256File := "a.bin.sha256"; SHA256Path := "/src/a.bin.sha256";
                    DataSize := 0; FirstSeen := 1; HasBothFiles := true |})
  /\ Tracker.ready_after Scenario.registry0 Scenario.checksum_once = Ret []
  /\ Tracker.ready_after Scenario.registry0 Scenario.checksum_twice = Ret [].
Proof. vm_compute. repeat split. Qed.

(** ** The coordinator *)

Section CoordinatorFacts.
Import Tracker Stats Pipeline.

Lemma SubmitJob_keeps (wpm : WorkerPoolManager) (w : World) (job : VerificationJob) :
  fileTracker (fst (SubmitJob wpm w job)) = fileTracker w
  /\ fsys (fst (SubmitJob wpm w job)) = fsys w.
Proof.
  unfold SubmitJob.
  destruct (List.length (jobQueue w) <? queueSize wpm)%nat; simpl; done.
Qed.

Lemma submit_all_keeps (config : VerificationConfig) (wpm : WorkerPoolManager)
    (readyFiles : list FilePair) :
  forall w,
    let w1 :=
      fold_left
        (fun w filePair =>
           fst (SubmitJob wpm w
                  {| JobFilePair := filePair;
                     RetryDeadline := FirstSeen filePair + RetryTimeout config;
                     BufferSize := ConfigBufferSize config |}))
        readyFiles w in
    fileTracker w1 = fileTracker w /\ fsys w1 = fsys w.
Proof.
  induction readyFiles as [|p ps IH]; intros w; simpl.
  - done.
  - destruct (IH (fst (SubmitJob wpm w
                         {| JobFilePair := p;
                            RetryDeadline := FirstSeen p + RetryTimeout config;
                            BufferSize := ConfigBufferSize config |}))) as [H1 H2].
    simpl in H1, H2. rewrite H1, H2. apply SubmitJob_keeps.
Qed.

(** A tick of the coordinator changes neither the registry nor the file
    system: it only fills the job queue and publishes the pending count. *)
Lemma coordinator_tick_keeps (config : VerificationConfig) (wpm : WorkerPoolManager)
    (w : World) :
  fileTracker (coordinator_tick config wpm w) = fileTracker w
  /\ fsys (coordinator_tick config wpm w) = fsys w.
Proof.
  unfold coordinator_tick. simpl.
  apply (submit_all_keeps config wpm (GetReadyForVerification (fileTracker w)) w).
Qed.

Lemma coordinator_tick_nothing_ready (config : VerificationConfig)
    (wpm : WorkerPoolManager) (w : World) :
  GetReadyForVerification (fileTracker w) = [] ->
  jobQueue (coordinator_tick config wpm w) = jobQueue w.
Proof. unfold coordinator_tick. intros ->. reflexivity. Qed.

Lemma coordinator_keeps (config : VerificationConfig) (wpm : WorkerPoolManager)
    (evs : list event) :
  forall w,
    fileTracker (coordinator config wpm w evs) = fileTracker w
    /\ fsys (coordinator config wpm w evs) = fsys w.
Proof.
  induction evs as [|ev evs IH]; intros w; simpl; [done|].
  destruct ev.
  - destruct (IH (coordinator_tick config wpm w)) as [H1 H2].
    rewrite H1, H2. apply coordinator_tick_keeps.
  - destruct (IH (coordinator_stats_tick w)) as [H1 H2].
    rewrite H1, H2. done.
  - done.
Qed.

Lemma coordinator_nothing_ready (config : VerificationConfig) (wpm : WorkerPoolManager)
    (evs : list event) :
  forall w,
    GetReadyForVerification (fileTracker w) = [] ->
    jobQueue (coordinator config wpm w evs) = jobQueue w.
Proof.
  induction evs as [|ev evs IH]; intros w Hready; simpl; [done|].
  destruct ev.
  - rewrite IH.
    + by apply coordinator_tick_nothing_ready.
    + by rewrite (proj1 (coordinator_tick_keeps config wpm w)).
  - by rewrite IH.
  - done.
Qed.

End CoordinatorFacts.

(** C1.  Scenario C on the code: [c.bin] was first seen at time 0 and the
    retry timeout is five seconds, so at ten seconds the registry's own
    [GetExpiredFiles] and [IsExpired] report it as expired.  It is not
    ready, and whatever events the coordinator then handles, [c.bin] is
    still in the registry, the file is still in the source folder, nothing
    is in the dead-letter folder and no job was queued: the coordinator
    never consults the expiry scan. *)
Theorem coordinator_never_reaps_unpaired_file :
  Tracker.GetExpiredFiles (Pipeline.fileTracker Scenario.world_C) (10 * Scenario.second)
  = [ {| DataFile := "c.bin"; DataFilePath := "/src/c.bin";
         SHA256File := ""; SHA256Path := "";
         DataSize := 7; FirstSeen := 0; HasBothFiles := false |} ]
  /\ Tracker.IsExpired (Pipeline.fileTracker Scenario.world_C) "c.bin" (10 * Scenario.second)
     = true
  /\ Tracker.GetReadyForVerification (Pipeline.fileTracker Scenario.world_C) = []
  /\ forall evs : list Pipeline.event,
       Tracker.GetFilePair
         (Pipeline.fileTracker
            (Pipeline.coordinator Scenario.config Scenario.pool Scenario.world_C evs))
         "c.bin"
       = Some {| DataFile := "c.bin"; DataFilePath := "/src/c.bin";
                 SHA256File := ""; SHA256Path := "";
                 DataSize := 7; FirstSeen := 0; HasBothFiles := false |}
       /\ Pipeline.fsys
            (Pipeline.coordinator Scenario.config Scenario.pool Scenario.world_C evs)
          = Pipeline.fsys Scenario.world_C
       /\ Pipeline.jobQueue
            (Pipeline.coordinator Scenario.config Scenario.pool Scenario.world_C evs)
          = [].
Proof.
  assert (Hready : Tracker.GetReadyForVerification (Pipeline.fileTracker Scenario.world_C) = [])
    by (vm_compute; reflexivity).
  split; [vm_compute; reflexivity|].
  split; [vm_compute; reflexivity|].
  split; [exact Hready|].
  intros evs.
  destruct (coordinator_keeps Scenario.config Scenario.pool evs Scenario.world_C) as [Hft Hfs].
  rewrite Hft, Hfs.
  rewrite (coordinator_nothing_ready Scenario.config Scenario.pool evs Scenario.world_C Hready).
  split; [vm_compute; reflexivity|]. split; reflexivity.
Qed.

(** ** The worker *)

Section WorkerFacts.
Import Tracker Stats Pipeline.

(** Strictly after the deadline a failed pair is routed to the
    dead-letter folder, removed from the registry and counted. *)
Lemma handleFailure_after_deadline (wpm : WorkerPoolManager) (w : World)
    (result : VerificationResult) (now : Z) :
  RetryDeadline (Job result) < now ->
  fsys (handleFailure wpm w result now)
  = fst (FileOps.MoveToDLQ (fsys w) (pid wpm)
           (DataFilePath (JobFilePair (Job result)))
           (SHA256Path (JobFilePair (Job result))) (dlqFolder wpm))
  /\ fileTracker (handleFailure wpm w result now)
     = Remove (fileTracker w) (DataFile (JobFilePair (Job result)))
  /\ statsTracker (handleFailure wpm w result now)
     = IncrementFailure (statsTracker w) (Duration result).
Proof.
  intros Hlt. unfold handleFailure.
  destruct (Z.ltb_spec (RetryDeadline (Job result)) now) as [_|Hge]; [|lia].
  destruct (FileOps.MoveToDLQ _ _ _ _ _) as [fs1 [err|]]; simpl; done.
Qed.

(** Up to and including the deadline nothing happens. *)
Lemma handleFailure_until_deadline (wpm : WorkerPoolManager) (w : World)
    (result : VerificationResult) (now : Z) :
  now <= RetryDeadline (Job result) ->
  handleFailure wpm w result now = w.
Proof.
  intros Hle. unfold handleFailure.
  destruct (Z.ltb_spec (RetryDeadline (Job result)) now) as [Hlt|_]; [lia|reflexivity].
Qed.

End WorkerFacts.

(** The claim of C4 fails as stated at the boundary: in scenario B a
    failed verification handled at the instant [now = RetryDeadline] (five
    seconds after the first sighting) takes the no-action branch: the pair
    stays in the registry, the data file stays in the source folder and the
    failure counter is not incremented. *)
Lemma failed_at_deadline_is_not_dead_lettered :
  RetryDeadline Scenario.job_b = FirstSeen Scenario.pair_b + Pipeline.RetryTimeout Scenario.config
  /\ Pipeline.handleFailure Scenario.pool Scenario.world_B Scenario.failed_b
       (RetryDeadline Scenario.job_b) = Scenario.world_B
  /\ Tracker.GetFilePair
       (Pipeline.fileTracker
          (Pipeline.handleFailure Scenario.pool Scenario.world_B Scenario.failed_b
             (RetryDeadline Scenario.job_b)))
       "b.bin" = Some Scenario.pair_b
  /\ Stats.failureCount
       (Pipeline.statsTracker
          (Pipeline.handleFailure Scenario.pool Scenario.world_B Scenario.failed_b
             (RetryDeadline Scenario.job_b))) = 0
  /\ FileOps.FileExists
       (Pipeline.fsys
          (Pipeline.handleFailure Scenario.pool Scenario.world_B Scenario.failed_b
             (RetryDeadline Scenario.job_b)))
       "/src/b.bin" = true.
Proof.
  rewrite (handleFailure_until_deadline Scenario.pool Scenario.world_B Scenario.failed_b
             (RetryDeadline Scenario.job_b))
    by (change (Job Scenario.failed_b) with Scenario.job_b; lia).
  vm_compute. repeat split.
Qed.

(** C4, amended.  On a failed verification handled at time [now]: if [now]
    is strictly after the job's retry deadline, both files are handed to
    [MoveToDLQ], the pair is removed from the registry and the failure
    counter is incremented; if [now] is at or before the deadline (the
    boundary instant included), nothing changes. *)
Theorem handleFailure_deadline_dichotomy
    (wpm : Pipeline.WorkerPoolManager) (w : Pipeline.World)
    (result : VerificationResult) (now : Z) :
  (RetryDeadline (Job result) < now ->
     Pipeline.fsys (Pipeline.handleFailure wpm w result now)
     = fst (FileOps.MoveToDLQ (Pipeline.fsys w) (Pipeline.pid wpm)
              (DataFilePath (JobFilePair (Job result)))
              (SHA256Path (JobFilePair (Job result))) (Pipeline.dlqFolder wpm))
     /\ Tracker.GetFilePair (Pipeline.fileTracker (Pipeline.handleFailure wpm w result now))
          (DataFile (JobFilePair (Job result))) = None
     /\ Pipeline.fileTracker (Pipeline.handleFailure wpm w result now)
        = Tracker.Remove (Pipeline.fileTracker w) (DataFile (JobFilePair (Job result)))
     /\ Pipeline.statsTracker (Pipeline.handleFailure wpm w result now)
        = Stats.IncrementFailure (Pipeline.statsTracker w) (Duration result))
  /\ (now <= RetryDeadline (Job result) ->
       Pipeline.handleFailure wpm w result now = w).
Proof.
  split.
  - intros Hlt.
    destruct (handleFailure_after_deadline wpm w result now Hlt) as (Hfs & Hft & Hst).
    split; [exact Hfs|]. split; [|split; [exact Hft|exact Hst]].
    rewrite Hft. apply lookup_delete_eq.
  - apply handleFailure_until_deadline.
Qed.

Lemma handleFailure_deadline_dichotomy_witness :
  RetryDeadline (Job Scenario.failed_b) < RetryDeadline Scenario.job_b + 1
  /\ Tracker.GetFilePair
       (Pipeline.fileTracker
          (Pipeline.handleFailure Scenario.pool Scenario.world_B Scenario.failed_b
             (RetryDeadline Scenario.job_b + 1)))
       "b.bin" = None.
Proof.
  split.
  - vm_compute. reflexivity.
  - apply (proj1 (handleFailure_deadline_dichotomy Scenario.pool Scenario.world_B
                    Scenario.failed_b (RetryDeadline Scenario.job_b + 1))).
    vm_compute. reflexivity.
Defined.

(** One nanosecond later the same pair is dead-lettered. *)
Example handleFailure_just_after_deadline :
  let w := Pipeline.handleFailure Scenario.pool Scenario.world_B Scenario.failed_b
             (RetryDeadline Scenario.job_b + 1) in
  Tracker.GetFilePair (Pipeline.fileTracker w) "b.bin" = None
  /\ Stats.failureCount (Pipeline.statsTracker w) = 1
  /\ FileOps.FileExists (Pipeline.fsys w) "/src/b.bin" = false
  /\ FileOps.FileExists (Pipeline.fsys w) "/dlq/b.bin" = true
  /\ FileOps.FileExists (Pipeline.fsys w) "/dlq/b.bin.sha256" = true.
Proof. vm_compute. repeat split. Qed.

(** The claim of C3 fails as stated: the verification of [b.bin] succeeded,
    the move to the verified folder fails (the data file is gone), and the
    pair is still in the registry; the success counter is unchanged and the
    failure counter is incremented. *)
Lemma verified_but_move_failed_keeps_pair :
  let w := Pipeline.handleSuccess Scenario.pool Scenario.world_B_data_gone
             Scenario.verified_b in
  Tracker.GetFilePair (Pipeline.fileTracker w) "b.bin" = Some Scenario.pair_b
  /\ Stats.successCount (Pipeline.statsTracker w) = 0
  /\ Stats.failureCount (Pipeline.statsTracker w) = 1
  /\ Pipeline.errorStream w
     = [Pipeline.MoveToVerifiedFailed "b.bin"
          (FileOps.ErrMoveVerified (FileOps.ErrCopy (FileOps.ErrNotExist "/src/b.bin")))].
Proof. vm_compute. repeat split. Qed.

(** C3, amended.  After a successful verification, [handleSuccess] first
    moves the data file.  If the move succeeds, the pair is removed from the
    registry and the success counter is incremented, also when deleting the
    checksum file fails (that failure is written to the error stream).  If
    the move fails, the error is written to the error stream, the failure
    counter is incremented and the registry is left as it was. *)
Theorem handleSuccess_outcomes
    (wpm : Pipeline.WorkerPoolManager) (w : Pipeline.World) (result : VerificationResult) :
  (forall fs1 newPath,
      FileOps.MoveToVerified (Pipeline.fsys w) (Pipeline.pid wpm)
        (DataFilePath (JobFilePair (Job result))) (Pipeline.verifiedFolder wpm)
      = (fs1, (newPath, None)) ->
      Pipeline.fileTracker (Pipeline.handleSuccess wpm w result)
      = Tracker.Remove (Pipeline.fileTracker w) (DataFile (JobFilePair (Job result)))
      /\ Tracker.GetFilePair (Pipeline.fileTracker (Pipeline.handleSuccess wpm w result))
           (DataFile (JobFilePair (Job result))) = None
      /\ Pipeline.statsTracker (Pipeline.handleSuccess wpm w result)
         = Stats.IncrementSuccess (Pipeline.statsTracker w) (Duration result)
      /\ Pipeline.errorStream (Pipeline.handleSuccess wpm w result)
         = match snd (FileOps.DeleteFile fs1 (SHA256Path (JobFilePair (Job result)))) with
           | Some e =>
               (Pipeline.errorStream w
                ++ [Pipeline.DeleteSHA256Failed (SHA256File (JobFilePair (Job result))) e])%list
           | None => Pipeline.errorStream w
           end)
  /\ (forall fs1 newPath e,
        FileOps.MoveToVerified (Pipeline.fsys w) (Pipeline.pid wpm)
          (DataFilePath (JobFilePair (Job result))) (Pipeline.verifiedFolder wpm)
        = (fs1, (newPath, Some e)) ->
        Pipeline.fileTracker (Pipeline.handleSuccess wpm w result) = Pipeline.fileTracker w
        /\ Pipeline.statsTracker (Pipeline.handleSuccess wpm w result)
           = Stats.IncrementFailure (Pipeline.statsTracker w) (Duration result)
        /\ Pipeline.errorStream (Pipeline.handleSuccess wpm w result)
           = (Pipeline.errorStream w
              ++ [Pipeline.MoveToVerifiedFailed (DataFile (JobFilePair (Job result))) e])%list).
Proof.
  split.
  - intros fs1 newPath Hmove. unfold Pipeline.handleSuccess. rewrite Hmove. simpl.
    destruct (FileOps.DeleteFile fs1 (SHA256Path (JobFilePair (Job result))))
      as [fs2 [e|]]; simpl;
      (split; [reflexivity|]); (split; [apply lookup_delete_eq|]); done.
  - intros fs1 newPath e Hmove. unfold Pipeline.handleSuccess. rewrite Hmove. simpl.
    done.
Qed.

Lemma handleSuccess_outcomes_witness :
  Tracker.GetFilePair
    (Pipeline.fileTracker
       (Pipeline.handleSuccess Scenario.pool Scenario.world_B_checksum_gone
          Scenario.verified_b))
    "b.bin" = None
  /\ Stats.successCount
       (Pipeline.statsTracker
          (Pipeline.handleSuccess Scenario.pool Scenario.world_B_checksum_gone
             Scenario.verified_b)) = 1
  /\ Pipeline.errorStream
       (Pipeline.handleSuccess Scenario.pool Scenario.world_B_checksum_gone
          Scenario.verified_b)
     = [Pipeline.DeleteSHA256Failed "b.bin.sha256"
          (FileOps.ErrDelete "/src/b.bin.sha256" (FileOps.ErrNotExist "/src/b.bin.sha256"))].
Proof.
  destruct (proj1 (handleSuccess_outcomes Scenario.pool Scenario.world_B_checksum_gone
                     Scenario.verified_b)
              (fst (FileOps.MoveToVerified
                      (Pipeline.fsys Scenario.world_B_checksum_gone) 4242
                      "/src/b.bin" "/verified"))
              "/verified/b.bin")
    as (_ & Hgone & Hstats & Herr).
  - vm_compute. reflexivity.
  - split; [exact Hgone|]. split.
    + rewrite Hstats. vm_compute. reflexivity.
    + rewrite Herr. vm_compute. reflexivity.
Defined.

(** ** File routing *)

Section FileOpsFacts.
Import FileOps.


Lemma destination_no_collision (fs : FS) (pid : Z) (folder filename : string) :
  Stat fs (Filepath.Join folder filename) = false ->
  destination fs pid folder filename = Filepath.Join folder filename
  /\ Stat fs (destination fs pid folder filename) = false.
Proof. unfold destination. intros H. rewrite H. done. Qed.

(** The destination is free exactly when there is no collision or the
    one uniquified name is free. *)
Lemma destination_free_iff (fs : FS) (pid : Z) (folder filename : string) :
  Stat fs (destination fs pid folder filename) = false
  <-> Stat fs (Filepath.Join folder filename) = false
      \/ Stat fs (getUniqueFilePath pid folder filename) = false.
Proof.
  unfold destination.
  destruct (Stat fs (Filepath.Join folder filename)) eqn:E.
  - split; [by right|]. by intros [?|?].
  - rewrite E. split; [by left|done].
Qed.

End FileOpsFacts.

(** C8.  Scenario D twice in one process (process id 4242).  The verified
    folder holds an [a.bin].  A first [/src/a.bin] is moved to
    [/verified/a_4242.bin].  A second [/src/a.bin] arrives; the move
    chooses [/verified/a_4242.bin] again, which names an existing file, and
    replaces it: the content of the first file is lost. *)
Theorem second_collision_overwrites_first :
  snd (FileOps.MoveToVerified Scenario.fs_D 4242 "/src/a.bin" "/verified")
  = ("/verified/a_4242.bin", None)
  /\ FileOps.entries Scenario.fs_D_second_arrival !! "/verified/a.bin" = Some "old"
  /\ FileOps.entries Scenario.fs_D_second_arrival !! "/verified/a_4242.bin" = Some "first"
  /\ FileOps.destination Scenario.fs_D_second_arrival 4242 "/verified" "a.bin"
     = "/verified/a_4242.bin"
  /\ snd (FileOps.MoveToVerified Scenario.fs_D_second_arrival 4242 "/src/a.bin" "/verified")
     = ("/verified/a_4242.bin", None)
  /\ FileOps.entries Scenario.fs_D_after_second_move !! "/verified/a_4242.bin"
     = Some "second"
  /\ forallb (fun kv => negb (String.eqb (snd kv) "first"))
       (map_to_list (FileOps.entries Scenario.fs_D_after_second_move)) = true.
Proof. vm_compute. repeat split. Qed.

(** The same happens on the copy-and-delete path taken across file
    systems: [os.Create] truncates the existing file. *)
Example second_collision_overwrites_first_cross_device :
  let fs :=
    {| FileOps.entries :=
         {[ "/verified/a.bin" := "old"; "/verified/a_4242.bin" := "first";
            "/src/a.bin" := "second" ]};
       FileOps.cross_device := true |} in
  snd (FileOps.MoveToVerified fs 4242 "/src/a.bin" "/verified")
  = ("/verified/a_4242.bin", None)
  /\ FileOps.entries (fst (FileOps.MoveToVerified fs 4242 "/src/a.bin" "/verified"))
       !! "/verified/a_4242.bin" = Some "second".
Proof. vm_compute. repeat split. Qed.

(** A first collision is resolved without overwriting. *)
Example first_collision_is_resolved :
  FileOps.entries Scenario.fs_D_after_first_move !! "/verified/a.bin" = Some "old"
  /\ FileOps.entries Scenario.fs_D_after_first_move !! "/verified/a_4242.bin" = Some "first"
  /\ FileOps.entries Scenario.fs_D_after_first_move !! "/src/a.bin" = None.
Proof. vm_compute. repeat split. Qed.

(** ** The verifier *)

Section VerifierFacts.
Import Verifier.

Lemma Fields_trim_left (s : string) : Fields (trim_left s) = Fields s.
Proof.
  induction s as [|c s IH]; simpl; [reflexivity|].
  destruct (asciiSpace c) eqn:E; [exact IH|].
  simpl. rewrite E. reflexivity.
Qed.

Lemma starts_field_trim_right (s : string) :
  starts_field (trim_right s) = starts_field s.
Proof.
  destruct s as [|c s]; simpl; [reflexivity|].
  destruct (trim_right s); [|reflexivity].
  destruct (asciiSpace c) eqn:E; simpl; rewrite ?E; reflexivity.
Qed.

Lemma Fields_trim_right (s : string) : Fields (trim_right s) = Fields s.
Proof.
  induction s as [|c s IH]; simpl; [reflexivity|].
  pose proof (starts_field_trim_right s) as Hst.
  destruct (trim_right s) as [|a r] eqn:E.
  - simpl in Hst, IH. rewrite <- Hst, <- IH.
    destruct (asciiSpace c) eqn:Ec; simpl; [reflexivity|].
    rewrite Ec. reflexivity.
  - destruct (asciiSpace c) eqn:Ec.
    + change (Fields (String c (String a r))) with
        (if asciiSpace c then Fields (String a r)
         else if starts_field (String a r)
              then match Fields (String a r) with
                   | t :: ts => String c t :: ts
                   | [] => [String c EmptyString]
                   end
              else String c EmptyString :: Fields (String a r)).
      rewrite Ec. exact IH.
    + change (Fields (String c (String a r))) with
        (if asciiSpace c then Fields (String a r)
         else if starts_field (String a r)
              then match Fields (String a r) with
                   | t :: ts => String c t :: ts
                   | [] => [String c EmptyString]
                   end
              else String c EmptyString :: Fields (String a r)).
      rewrite Ec, Hst, IH. reflexivity.
Qed.

Lemma Fields_TrimSpace (s : string) : Fields (TrimSpace s) = Fields s.
Proof. unfold TrimSpace. by rewrite Fields_trim_right, Fields_trim_left. Qed.

Lemma take_field_no_start (s : string) :
  starts_field s = false -> take_field s = "".
Proof.
  destruct s as [|c s]; simpl; [reflexivity|].
  destruct (asciiSpace c); [reflexivity|discriminate].
Qed.

(** The first element of [Fields] is the first token. *)
Lemma head_Fields (s : string) : head (Fields s) = first_token s.
Proof.
  unfold first_token.
  induction s as [|c s IH]; simpl; [reflexivity|].
  destruct (asciiSpace c) eqn:Ec; [exact IH|].
  simpl. rewrite Ec.
  destruct (starts_field s) eqn:Es.
  - destruct s as [|a s]; [discriminate|].
    simpl in Es. apply negb_true_iff in Es.
    cbn [trim_left] in IH. rewrite Es in IH.
    destruct (Fields (String a s)) as [|t ts]; [discriminate|].
    injection IH as ->. reflexivity.
  - simpl. by rewrite take_field_no_start.
Qed.

Lemma ReadSHA256File_no_token (content : string) :
  first_token content = None ->
  exists e, ReadSHA256File (Some content) = Ret ("", Some e).
Proof.
  intros Hnone. unfold ReadSHA256File.
  destruct (String.eqb (TrimSpace content) ""); [eauto|].
  rewrite Fields_TrimSpace.
  rewrite <- head_Fields in Hnone.
  destruct (Fields content); [simpl; eauto|discriminate].
Qed.

Lemma ReadSHA256File_token (content tok : string) :
  first_token content = Some tok ->
  ReadSHA256File (Some content) =
    if negb (Nat.eqb (String.length (ToLower tok)) 64)
    then Ret ("", Some (ErrHashLength (String.length (ToLower tok))))
    else match DecodeString (ToLower tok) with
         | None => Ret ("", Some ErrHashFormat)
         | Some _ => Ret (ToLower tok, None)
         end.
Proof.
  intros Htok. unfold ReadSHA256File.
  rewrite <- head_Fields in Htok.
  destruct (String.eqb_spec (TrimSpace content) "") as [Hempty|_].
  - pose proof (Fields_TrimSpace content) as H. rewrite Hempty in H. simpl in H.
    rewrite <- H in Htok. discriminate.
  - rewrite Fields_TrimSpace.
    destruct (Fields content) as [|p ps]; [discriminate|].
    injection Htok as ->. reflexivity.
Qed.

(** *** Hexadecimal encoding *)

Lemma hex_digits_lower (v : ascii) :
  lower_byte (hex_digit (N.shiftr (N_of_ascii v) 4)) = hex_digit (N.shiftr (N_of_ascii v) 4)
  /\ lower_byte (hex_digit (N.land (N_of_ascii v) 15)) = hex_digit (N.land (N_of_ascii v) 15).
Proof.
  destruct v as [[|] [|] [|] [|] [|] [|] [|] [|]]; vm_compute; split; reflexivity.
Qed.


Lemma lower_byte_idempotent (c : ascii) : lower_byte (lower_byte c) = lower_byte c.
Proof.
  destruct c as [[|] [|] [|] [|] [|] [|] [|] [|]]; vm_compute; reflexivity.
Qed.

Lemma ToLower_idempotent (s : string) : ToLower (ToLower s) = ToLower s.
Proof.
  induction s as [|c s IH]; simpl; [reflexivity|].
  by rewrite lower_byte_idempotent, IH.
Qed.

Lemma ToLower_EncodeToString (src : list ascii) :
  ToLower (EncodeToString src) = EncodeToString src.
Proof.
  induction src as [|v src IH]; simpl; [reflexivity|].
  destruct (hex_digits_lower v) as [H1 H2].
  by rewrite H1, H2, IH.
Qed.




End VerifierFacts.



Example VerifyFile_examples :
  Verifier.VerifyFile (Some Scenario.checksum_file_ab) (Some Scenario.digest_ab)
  = Ret (Verifier.ToLower Scenario.hex_ab_upper, Verifier.ToLower Scenario.hex_ab_upper, None)
  /\ Verifier.first_token Scenario.checksum_file_ab = Some Scenario.hex_ab_upper
  /\ Verifier.VerifyFile (Some Scenario.checksum_file_ab) (Some (repeat (ascii_of_nat 1) 32))
     = Ret ("0101010101010101010101010101010101010101010101010101010101010101",
            Verifier.ToLower Scenario.hex_ab_upper, Some Verifier.ErrMismatch)
  /\ Verifier.VerifyFile (Some "") (Some Scenario.digest_ab)
     = Ret ("", "", Some (Verifier.ErrReadExpected Verifier.ErrEmptyFile))
  /\ Verifier.VerifyFile (Some Scenario.newline) (Some Scenario.digest_ab)
     = Ret ("", "", Some (Verifier.ErrReadExpected Verifier.ErrEmptyFile))
  /\ Verifier.VerifyFile (Some Scenario.checksum_file_short) (Some Scenario.digest_ab)
     = Ret ("", "", Some (Verifier.ErrReadExpected (Verifier.ErrHashLength 4)))
  /\ Verifier.VerifyFile (Some Scenario.checksum_file_not_hex) (Some Scenario.digest_ab)
     = Ret ("", "", Some (Verifier.ErrReadExpected Verifier.ErrHashFormat))
  /\ Verifier.VerifyFile None (Some Scenario.digest_ab)
     = Ret ("", "", Some (Verifier.ErrReadExpected Verifier.ErrReadFile))
  /\ Verifier.VerifyFile (Some Scenario.checksum_file_ab) None
     = Ret ("", Verifier.ToLower Scenario.hex_ab_upper,
            Some (Verifier.ErrCompute Verifier.ErrOpenOrRead)).
Proof. vm_compute. repeat split. Qed.


(** * Further properties of the code *)

(** ** The pair registry: removal, counting, first sighting, expiry *)

Section RegistryMore.
Import Tracker History.

Lemma files_Remove (ft : FileTracker) (k k' : string) :
  files (Remove ft k) !! k' = if decide (k = k') then None else files ft !! k'.
Proof.
  unfold Remove. simpl. destruct (decide (k = k')) as [->|Hne].
  - apply lookup_delete_eq.
  - by apply lookup_delete_ne.
Qed.

Lemma with_files_same (ft : FileTracker) : with_files ft (files ft) = ft.
Proof. by destruct ft. Qed.

(** A call that does not remove [k] keeps the entry of [k] and its first
    sighting. *)
Lemma step_keeps_FirstSeen (k : string) (ft ft' : FileTracker) (c : call) (p : FilePair) :
  not_removing k c = true ->
  files ft !! k = Some p -> step ft c = Ret ft' ->
  exists p', files ft' !! k = Some p'
             /\ FirstSeen p' = FirstSeen p /\ DataFile p' = DataFile p.
Proof.
  intros Hkeep Hk Hstep.
  destruct c as [path size now|path now|key]; simpl in Hstep, Hkeep.
  - injection Hstep as <-. rewrite lookup_AddOrUpdateDataFile.
    destruct (decide (Filepath.Base path = k)) as [_|_]; [|eauto].
    rewrite Hk. eauto.
  - destruct (AddOrUpdateSHA256File_inv _ _ _ _ Hstep) as [k' Hk'].
    rewrite (lookup_AddOrUpdateSHA256File _ _ _ _ _ k Hk' Hstep).
    destruct (decide (k' = k)) as [_|_]; [|eauto].
    rewrite Hk. eauto.
  - injection Hstep as <-.
    apply negb_true_iff, String.eqb_neq in Hkeep.
    rewrite files_Remove, decide_False by done. eauto.
Qed.

End RegistryMore.

(** X1.  [Remove] deletes exactly one key: afterwards the key is not
    tracked, every other key is as before, and the pending count drops by
    one if the key was tracked and is unchanged otherwise; removing a key
    that is not tracked returns the same registry, so a second [Remove] is
    a no-op. *)
Theorem Remove_deletes_exactly_one_key (ft : Tracker.FileTracker) (k : string) :
  Tracker.GetFilePair (Tracker.Remove ft k) k = None
  /\ (forall k', k' <> k ->
        Tracker.GetFilePair (Tracker.Remove ft k) k' = Tracker.GetFilePair ft k')
  /\ Tracker.GetPendingCount (Tracker.Remove ft k)
     = Tracker.GetPendingCount ft
       - (match Tracker.GetFilePair ft k with Some _ => 1 | None => 0 end)
  /\ (Tracker.GetFilePair ft k = None -> Tracker.Remove ft k = ft)
  /\ Tracker.Remove (Tracker.Remove ft k) k = Tracker.Remove ft k.
Proof.
  unfold Tracker.GetFilePair.
  split; [|split; [|split; [|split]]].
  - rewrite files_Remove. by rewrite decide_True.
  - intros k' Hne. rewrite files_Remove. by rewrite decide_False.
  - unfold Tracker.GetPendingCount, Tracker.Remove. simpl.
    rewrite map_size_delete.
    destruct (Tracker.files ft !! k) as [p|] eqn:E; simpl; [|lia].
    assert (size (Tracker.files ft) <> 0%nat).
    { intros H0. apply map_size_empty_inv in H0. rewrite H0 in E.
      by rewrite lookup_empty in E. }
    lia.
  - intros Hnone. unfold Tracker.Remove.
    rewrite delete_id by done. apply with_files_same.
  - unfold Tracker.Remove, Tracker.with_files. simpl.
    by rewrite delete_delete_eq.
Qed.

Lemma Remove_deletes_exactly_one_key_witness :
  Tracker.GetFilePair Scenario.registry_bc "zzz" = None
  /\ Tracker.Remove Scenario.registry_bc "zzz" = Scenario.registry_bc.
Proof.
  split.
  - vm_compute. reflexivity.
  - apply (proj1 (proj2 (proj2 (proj2
             (Remove_deletes_exactly_one_key Scenario.registry_bc "zzz"))))).
    vm_compute. reflexivity.
Defined.

(** X2.  An upsert adds at most one entry: [AddOrUpdateDataFile] raises the
    pending count by one exactly when the base name of the path was not
    tracked, and leaves it unchanged when it was; the entry of every other
    key is untouched. *)
Theorem AddOrUpdateDataFile_pending_count
    (ft : Tracker.FileTracker) (path : string) (size now : Z) :
  Tracker.GetPendingCount (Tracker.AddOrUpdateDataFile ft path size now)
  = Tracker.GetPendingCount ft
    + (match Tracker.GetFilePair ft (Filepath.Base path) with Some _ => 0 | None => 1 end)
  /\ forall k, k <> Filepath.Base path ->
       Tracker.GetFilePair (Tracker.AddOrUpdateDataFile ft path size now) k
       = Tracker.GetFilePair ft k.
Proof.
  unfold Tracker.GetFilePair. split.
  - unfold Tracker.GetPendingCount, Tracker.AddOrUpdateDataFile.
    destruct (Tracker.files ft !! Filepath.Base path) as [p|] eqn:E; simpl.
    + rewrite map_size_insert_Some by eauto. lia.
    + rewrite map_size_insert_None by done. lia.
  - intros k Hne. rewrite lookup_AddOrUpdateDataFile. by rewrite decide_False.
Qed.

Lemma AddOrUpdateDataFile_pending_count_witness :
  "b.bin" <> Filepath.Base "/src/new.bin"
  /\ Tracker.GetFilePair
       (Tracker.AddOrUpdateDataFile Scenario.registry_bc "/src/new.bin" 3 9) "b.bin"
     = Tracker.GetFilePair Scenario.registry_bc "b.bin".
Proof.
  split.
  - vm_compute. discriminate.
  - apply (proj2 (AddOrUpdateDataFile_pending_count Scenario.registry_bc "/src/new.bin" 3 9)).
    vm_compute. discriminate.
Defined.

(** X3.  The first sighting of a pair is never renewed: through every
    sequence of registry calls that does not remove the pair, the pair
    stays tracked under its key with the [FirstSeen] it had, however often
    its data file or its checksum file is recorded again.  The retry
    deadline [FirstSeen + retryTimeout] therefore does not move. *)
Theorem FirstSeen_is_stable (k : string) (cs : list Tracker.call) :
  forall (ft ft' : Tracker.FileTracker) (p : FilePair),
    forallb (History.not_removing k) cs = true ->
    Tracker.files ft !! k = Some p ->
    Tracker.run ft cs = Ret ft' ->
    exists p', Tracker.files ft' !! k = Some p' /\ FirstSeen p' = FirstSeen p.
Proof.
  induction cs as [|c cs IH]; intros ft ft' p Hkeep Hk Hrun; simpl in *.
  - injection Hrun as <-. eauto.
  - apply andb_true_iff in Hkeep as [Hc Hcs].
    destruct (Tracker.step ft c) as [ft1|] eqn:E; [|discriminate].
    destruct (step_keeps_FirstSeen k ft ft1 c p Hc Hk E) as (p1 & Hp1 & Hfs & _).
    destruct (IH ft1 ft' p1 Hcs Hp1 Hrun) as (p' & Hp' & Hfs').
    exists p'. split; [done|]. congruence.
Qed.

Lemma FirstSeen_is_stable_witness :
  exists p',
    Tracker.files
      (Tracker.state_after Scenario.registry_bc Scenario.later_sightings_of_b)
      !! "b.bin" = Some p'
    /\ FirstSeen p' = FirstSeen Scenario.pair_b.
Proof.
  apply (FirstSeen_is_stable "b.bin" Scenario.later_sightings_of_b Scenario.registry_bc).
  - vm_compute. reflexivity.
  - vm_compute. reflexivity.
  - unfold Tracker.state_after.
    destruct (Tracker.run Scenario.registry_bc Scenario.later_sightings_of_b)
      as [ft2|] eqn:E; [reflexivity|].
    vm_compute in E. discriminate.
Defined.

(** X4.  The two expiry queries agree and expiry is monotone in time:
    a pair is in the list of [GetExpiredFiles] at [now] exactly when it is
    tracked under some key for which [IsExpired] holds at [now], whether or
    not it is both-present; and a pair expired at [now] is expired at
    every later instant (while the registry is unchanged).  [IsExpired] of
    a key that is not tracked is false. *)
Theorem expiry_queries_agree (ft : Tracker.FileTracker) (now : Z) :
  (forall p, In p (Tracker.GetExpiredFiles ft now)
             <-> exists k, Tracker.files ft !! k = Some p
                           /\ Tracker.IsExpired ft k now = true)
  /\ (forall k now', now <= now' ->
        Tracker.IsExpired ft k now = true -> Tracker.IsExpired ft k now' = true)
  /\ (forall k, Tracker.files ft !! k = None -> Tracker.IsExpired ft k now = false).
Proof.
  split; [|split].
  - intros p. rewrite In_GetExpiredFiles. unfold Tracker.IsExpired.
    split; intros (k & Hk & H); exists k; (split; [done|]); rewrite Hk in *.
    + by apply Z.leb_le.
    + by apply Z.leb_le in H.
  - intros k now' Hle. unfold Tracker.IsExpired.
    destruct (Tracker.files ft !! k) as [p|]; [|done].
    rewrite !Z.leb_le. lia.
  - intros k Hk. unfold Tracker.IsExpired. by rewrite Hk.
Qed.

Lemma expiry_queries_agree_witness :
  5 * Scenario.second <= 60 * Scenario.second
  /\ Tracker.IsExpired Scenario.registry_bc "c.bin" (60 * Scenario.second) = true.
Proof.
  split.
  - vm_compute. discriminate.
  - apply (proj1 (proj2 (expiry_queries_agree Scenario.registry_bc (5 * Scenario.second)))
             "c.bin" (60 * Scenario.second)).
    + vm_compute. discriminate.
    + vm_compute. reflexivity.
Defined.

Section RegistryKeys.
Import Tracker History.

(** Every entry is stored under the name its own fields give. *)
Definition keyed_by_name (ft : FileTracker) : Prop :=
  forall k p, files ft !! k = Some p ->
    DataFile p = k
    /\ (DataFilePath p <> "" -> Filepath.Base (DataFilePath p) = k)
    /\ (SHA256Path p <> "" ->
          SHA256File p = Filepath.Base (SHA256Path p)
          /\ derive_data_file (SHA256File p) = Ret k).

Lemma step_keyed_by_name (ft : FileTracker) (c : call) (ft' : FileTracker) :
  keyed_by_name ft -> step ft c = Ret ft' -> keyed_by_name ft'.
Proof.
  intros Hinv Hstep k p Hk.
  destruct c as [path size now|path now|key]; simpl in Hstep.
  - injection Hstep as <-.
    rewrite lookup_AddOrUpdateDataFile in Hk.
    destruct (decide (Filepath.Base path = k)) as [Hb|_]; [|eauto].
    destruct (files ft !! k) as [pr|] eqn:E; injection Hk as <-; simpl.
    + destruct (Hinv k pr E) as (H1 & H2 & H3). done.
    + done.
  - destruct (AddOrUpdateSHA256File_inv _ _ _ _ Hstep) as [k' Hk'].
    rewrite (lookup_AddOrUpdateSHA256File _ _ _ _ _ k Hk' Hstep) in Hk.
    destruct (decide (k' = k)) as [<-|_]; [|eauto].
    destruct (files ft !! k') as [pr|] eqn:E; injection Hk as <-; simpl.
    + destruct (Hinv k' pr E) as (H1 & H2 & H3). done.
    + done.
  - injection Hstep as <-. rewrite files_Remove in Hk.
    destruct (decide (key = k)); [discriminate|eauto].
Qed.

End RegistryKeys.

(** X5.  In every registry reached from the empty one, each pair is stored
    under its own name: the key equals the pair's [DataFile]; a recorded
    data path has that key as its base name; a recorded checksum path has
    [SHA256File] as its base name and the key is that name without its last
    seven bytes.  Consequently [RemoveByPath] with the recorded data path of
    a pair removes that very pair. *)
Theorem registry_keys_are_names (rt : Z) (cs : list Tracker.call)
    (ft : Tracker.FileTracker) (k : string) (p : FilePair) :
  Tracker.run (Tracker.NewFileTracker rt) cs = Ret ft ->
  Tracker.files ft !! k = Some p ->
  DataFile p = k
  /\ (DataFilePath p <> "" ->
        Filepath.Base (DataFilePath p) = k
        /\ Tracker.GetFilePair (Tracker.RemoveByPath ft (DataFilePath p)) k = None)
  /\ (SHA256Path p <> "" ->
        SHA256File p = Filepath.Base (SHA256Path p)
        /\ Tracker.derive_data_file (SHA256File p) = Ret k).
Proof.
  intros Hrun Hk.
  assert (Hinv : keyed_by_name ft).
  { apply (run_invariant keyed_by_name step_keyed_by_name cs
             (Tracker.NewFileTracker rt) ft); [|exact Hrun].
    intros k' p' Hk'. simpl in Hk'. by rewrite lookup_empty in Hk'. }
  destruct (Hinv k p Hk) as (H1 & H2 & H3).
  split; [exact H1|]. split; [|exact H3].
  intros Hne. split; [by apply H2|].
  unfold Tracker.RemoveByPath, Tracker.GetFilePair.
  rewrite (H2 Hne), files_Remove. by rewrite decide_True.
Qed.

Lemma registry_keys_are_names_witness :
  DataFile {| DataFile := "a.bin"; DataFilePath := "/src/a.bin";
              SHA256File := "a.bin.sha256"; SHA256Path := "/src/a.bin.sha256";
              DataSize := 8; FirstSeen := 1; HasBothFiles := true |} = "a.bin".
Proof.
  apply (registry_keys_are_names (5 * Scenario.second) Scenario.data_then_checksum
           (Tracker.state_after Scenario.registry0 Scenario.data_then_checksum) "a.bin").
  - unfold Tracker.state_after.
    destruct (Tracker.run Scenario.registry0 Scenario.data_then_checksum)
      as [ft2|] eqn:E; [exact E|].
    vm_compute in E. discriminate.
  - vm_compute. reflexivity.
Defined.

(** ** Paths built by the scanner *)

Section PathFacts.
Import Filepath.

Lemma append_cons (c : ascii) (a b : string) : String c a +:+ b = String c (a +:+ b).
Proof. reflexivity. Qed.

Lemma append_empty_l (b : string) : "" +:+ b = b.
Proof. reflexivity. Qed.

Lemma has_separator_app (a b : string) :
  has_separator (a +:+ b) = has_separator a || has_separator b.
Proof.
  induction a as [|c a IH]; [reflexivity|].
  rewrite append_cons. simpl. rewrite IH. by rewrite orb_assoc.
Qed.

Lemma append_nonempty_r (a b : string) : b <> "" -> a +:+ b <> "".
Proof. destruct a; [done|]. rewrite append_cons. discriminate. Qed.

Lemma append_assoc (a b c : string) : (a +:+ b) +:+ c = a +:+ (b +:+ c).
Proof.
  induction a as [|x a IH]; [reflexivity|].
  rewrite !append_cons. by rewrite IH.
Qed.

Lemma length_append (a b : string) :
  String.length (a +:+ b) = (String.length a + String.length b)%nat.
Proof.
  induction a as [|c a IH]; [reflexivity|].
  rewrite append_cons. simpl. by rewrite IH.
Qed.

Lemma substring_prefix (a b : string) : substring 0 (String.length a) (a +:+ b) = a.
Proof.
  induction a as [|c a IH].
  - rewrite append_empty_l. destruct b; reflexivity.
  - rewrite append_cons. simpl. by rewrite IH.
Qed.

Lemma strip_trailing_separators_no_separator (name : string) :
  has_separator name = false -> strip_trailing_separators name = name.
Proof.
  induction name as [|c n IHn]; simpl; [reflexivity|].
  intros Hsep. apply orb_false_iff in Hsep as [Hc Hn].
  rewrite (IHn Hn). destruct n; [by rewrite Hc|reflexivity].
Qed.

Lemma strip_trailing_separators_suffix (x name : string) :
  has_separator name = false -> name <> "" ->
  strip_trailing_separators (x +:+ name) = x +:+ name.
Proof.
  intros Hsep Hne. induction x as [|c x IH].
  - by apply strip_trailing_separators_no_separator.
  - rewrite append_cons. cbn [strip_trailing_separators]. rewrite IH.
    destruct (x +:+ name) eqn:E; [|reflexivity].
    by apply (append_nonempty_r x name) in Hne.
Qed.

Lemma last_element_no_separator (name : string) :
  has_separator name = false -> last_element name = name.
Proof.
  destruct name as [|c n]; simpl; [reflexivity|].
  intros H. apply orb_false_iff in H as [Hc Hn]. by rewrite Hn, Hc.
Qed.

Lemma last_element_after_separator (x name : string) :
  has_separator name = false ->
  last_element (x +:+ String Separator name) = name.
Proof.
  intros Hsep. induction x as [|c x IH].
  - rewrite append_empty_l. simpl. by rewrite Hsep.
  - rewrite append_cons. cbn [last_element].
    rewrite has_separator_app. simpl has_separator. by rewrite orb_true_r.
Qed.

Lemma Base_after_separator (x name : string) :
  has_separator name = false -> name <> "" ->
  Base (x +:+ String Separator name) = name.
Proof.
  intros Hsep Hne. unfold Base.
  destruct (x +:+ String Separator name) eqn:E.
  - by apply append_nonempty_r in E.
  - rewrite <- E.
    replace (x +:+ String Separator name)
      with ((x +:+ String Separator "") +:+ name) by (by rewrite append_assoc).
    rewrite strip_trailing_separators_suffix by done.
    rewrite append_assoc. rewrite append_cons, append_empty_l.
    rewrite last_element_after_separator by done.
    destruct name; [done|reflexivity].
Qed.

Lemma Base_no_separator (name : string) :
  has_separator name = false -> name <> "" -> Base name = name.
Proof.
  intros Hsep Hne. unfold Base.
  destruct name as [|c n]; [done|].
  rewrite strip_trailing_separators_no_separator by done.
  by rewrite last_element_no_separator.
Qed.

(** The base name of a folder joined with an entry name is that name. *)
Lemma Base_Join (folder name : string) :
  has_separator name = false -> name <> "" ->
  Base (Join folder name) = name.
Proof.
  intros Hsep Hne. unfold Join.
  destruct folder as [|f folder].
  - by apply Base_no_separator.
  - destruct name as [|c n]; [done|].
    by apply Base_after_separator.
Qed.

Lemma Join_append (folder name suffix : string) :
  name <> "" -> Join folder name +:+ suffix = Join folder (name +:+ suffix).
Proof.
  intros Hne. unfold Join.
  destruct folder as [|f folder]; [reflexivity|].
  destruct name as [|c n]; [done|].
  rewrite (append_cons c n suffix). by rewrite append_assoc.
Qed.

Lemma Join_nonempty (folder name : string) : name <> "" -> Join folder name <> "".
Proof.
  intros Hne. unfold Join.
  destruct folder; [done|]. destruct name; [done|].
  rewrite append_cons. discriminate.
Qed.

(** The key derived from [name.sha256] is [name]. *)
Lemma derive_data_file_sha256 (name : string) :
  Tracker.derive_data_file (name +:+ ".sha256") = Ret name.
Proof.
  unfold Tracker.derive_data_file. rewrite length_append. simpl String.length.
  destruct (Z.ltb_spec (Z.of_nat (String.length name + 7) - 7) 0); [lia|].
  replace (Z.to_nat (Z.of_nat (String.length name + 7) - 7)) with (String.length name)
    by lia.
  by rewrite substring_prefix.
Qed.

End PathFacts.

(** ** The scanner *)

Section ScannerFacts.
Import Tracker History Scanner.

Variable Match : string -> string -> option bool.

Lemma entry_name_ok_spec (name : string) :
  entry_name_ok name = true <-> name <> "" /\ Filepath.has_separator name = false.
Proof.
  unfold entry_name_ok.
  rewrite andb_true_iff, !negb_true_iff, String.eqb_neq. tauto.
Qed.

Lemma HasSuffix_length (s suffix : string) :
  HasSuffix s suffix = true -> (String.length suffix <= String.length s)%nat.
Proof.
  unfold HasSuffix. intros H. apply andb_true_iff in H as [H _].
  by apply Nat.leb_le in H.
Qed.

Lemma derive_data_file_long (sha256File : string) :
  (7 <= String.length sha256File)%nat ->
  exists k, derive_data_file sha256File = Ret k.
Proof.
  intros Hlen. unfold derive_data_file.
  destruct (Z.ltb_spec (Z.of_nat (String.length sha256File) - 7) 0); [lia|eauto].
Qed.

Lemma Base_checksum_path (folder name : string) :
  entry_name_ok name = true ->
  Filepath.Base (Filepath.Join folder name +:+ ".sha256") = name +:+ ".sha256".
Proof.
  intros Hok. apply entry_name_ok_spec in Hok as [Hne Hsep].
  rewrite Join_append by done.
  apply Base_Join.
  - rewrite has_separator_app, Hsep. reflexivity.
  - by apply append_nonempty_r.
Qed.

Lemma files_MarkBothFilesPresent (ft : FileTracker) (k' k : string) :
  files (MarkBothFilesPresent ft k') !! k =
    if decide (k' = k) then
      match files ft !! k with
      | Some pr =>
          Some {| DataFile := DataFile pr; DataFilePath := DataFilePath pr;
                  SHA256File := SHA256File pr; SHA256Path := SHA256Path pr;
                  DataSize := DataSize pr; FirstSeen := FirstSeen pr;
                  HasBothFiles := true |}
      | None => None
      end
    else files ft !! k.
Proof.
  unfold MarkBothFilesPresent.
  destruct (decide (k' = k)) as [<-|Hne].
  - destruct (files ft !! k') eqn:E; simpl; [by rewrite lookup_insert_eq|done].
  - destruct (files ft !! k') eqn:E; simpl; [by rewrite lookup_insert_ne|done].
Qed.

Lemma MarkBothFilesPresent_ready_at (ft : FileTracker) (k' k : string) :
  ready_at k ft -> ready_at k (MarkBothFilesPresent ft k').
Proof.
  intros (p & Hp & Hr). unfold ready_at.
  rewrite files_MarkBothFilesPresent.
  destruct (decide (k' = k)) as [_|_]; [|eauto].
  rewrite Hp. eexists; split; [reflexivity|].
  apply is_ready_spec in Hr as (_ & Hd & Hs).
  by apply is_ready_spec.
Qed.

(** The calls made for one entry never panic. *)
Lemma scan_entry_returns (fs : FileScanner) (disk : FileOps.FS) (ft : FileTracker)
    (entry : DirEntry) :
  entry_name_ok (Name entry) = true ->
  exists ft', scan_entry Match fs disk ft entry = Ret ft'.
Proof.
  intros Hok. pose proof Hok as Hok'.
  apply entry_name_ok_spec in Hok' as [Hne Hsep].
  unfold scan_entry.
  destruct (IsDir entry); [eauto|].
  destruct (HasSuffix (Name entry) ".sha256") eqn:Hsuf.
  - apply HasSuffix_length in Hsuf. simpl in Hsuf.
    destruct (derive_data_file_long (Name entry) Hsuf) as [k Hk].
    apply (AddOrUpdateSHA256File_Ret ft _ (seenChecksum entry) k).
    by rewrite Base_Join.
  - destruct (matchesFilter Match fs (Name entry)); [|eauto].
    destruct (Info entry) as [size|]; [|eauto].
    destruct (FileOps.Stat disk _); [|eauto].
    destruct (AddOrUpdateSHA256File_Ret
                (AddOrUpdateDataFile ft (Filepath.Join (sourceFolder fs) (Name entry))
                   size (seenData entry))
                (Filepath.Join (sourceFolder fs) (Name entry) +:+ ".sha256")
                (seenChecksum entry) (Name entry)) as [ft2 Hft2].
    + rewrite Base_checksum_path by done. apply derive_data_file_sha256.
    + rewrite Hft2. eauto.
Qed.

(** An entry leaves every ready pair ready. *)
Lemma scan_entry_keeps_ready (k : string) (fs : FileScanner) (disk : FileOps.FS)
    (ft ft' : FileTracker) (entry : DirEntry) :
  entry_name_ok (Name entry) = true ->
  ready_at k ft -> scan_entry Match fs disk ft entry = Ret ft' -> ready_at k ft'.
Proof.
  intros Hok Hr Hscan. apply entry_name_ok_spec in Hok as [Hne Hsep].
  unfold scan_entry in Hscan.
  destruct (IsDir entry); [by injection Hscan as <-|].
  destruct (HasSuffix (Name entry) ".sha256").
  - by apply (step_ready_at k ft
                (RecordChecksum (Filepath.Join (sourceFolder fs) (Name entry))
                   (seenChecksum entry)) ft').
  - destruct (matchesFilter Match fs (Name entry)); [|by injection Hscan as <-].
    destruct (Info entry) as [size|]; [|by injection Hscan as <-].
    assert (Hr1 : ready_at k
              (AddOrUpdateDataFile ft (Filepath.Join (sourceFolder fs) (Name entry))
                 size (seenData entry))).
    { apply (step_ready_at k ft
               (RecordData (Filepath.Join (sourceFolder fs) (Name entry)) size
                  (seenData entry))); [|done|done].
      simpl. apply negb_true_iff, String.eqb_neq. by apply Join_nonempty. }
    destruct (FileOps.Stat disk _); [|by injection Hscan as <-].
    destruct (AddOrUpdateSHA256File _ _ _) as [ft2|] eqn:E; [|discriminate].
    injection Hscan as <-.
    apply MarkBothFilesPresent_ready_at.
    exact (step_ready_at k _
             (RecordChecksum (Filepath.Join (sourceFolder fs) (Name entry) +:+ ".sha256")
                (seenChecksum entry)) ft2 eq_refl Hr1 E).
Qed.

Lemma scan_entries_keep_ready (k : string) (fs : FileScanner) (disk : FileOps.FS)
    (entries : list DirEntry) :
  forall ft ft',
    forallb (fun e => entry_name_ok (Name e)) entries = true ->
    ready_at k ft -> scan_entries Match fs disk ft entries = Ret ft' -> ready_at k ft'.
Proof.
  induction entries as [|e es IH]; intros ft ft' Hok Hr Hscan; simpl in *.
  - by injection Hscan as <-.
  - apply andb_true_iff in Hok as [He Hes].
    destruct (scan_entry Match fs disk ft e) as [ft1|] eqn:E; [|discriminate].
    eapply IH; [exact Hes| |exact Hscan].
    by eapply scan_entry_keeps_ready.
Qed.

(** A matching data file whose checksum file is on disk is ready after its
    entry has been handled, whatever the registry held before. *)
Lemma scan_entry_makes_ready (fs : FileScanner) (disk : FileOps.FS)
    (ft ft' : FileTracker) (entry : DirEntry) (size : Z) :
  entry_name_ok (Name entry) = true ->
  IsDir entry = false ->
  HasSuffix (Name entry) ".sha256" = false ->
  matchesFilter Match fs (Name entry) = true ->
  Info entry = Some size ->
  FileOps.Stat disk (Filepath.Join (sourceFolder fs) (Name entry) +:+ ".sha256") = true ->
  scan_entry Match fs disk ft entry = Ret ft' ->
  ready_at (Name entry) ft'.
Proof.
  intros Hok Hdir Hsuf Hmatch Hinfo Hstat Hscan.
  pose proof Hok as Hok'. apply entry_name_ok_spec in Hok' as [Hne Hsep].
  unfold scan_entry in Hscan.
  rewrite Hdir, Hsuf, Hmatch, Hinfo, Hstat in Hscan.
  destruct (AddOrUpdateSHA256File _ _ _) as [ft2|] eqn:E; [|discriminate].
  injection Hscan as <-.
  apply MarkBothFilesPresent_ready_at.
  assert (Hkey : derive_data_file
                   (Filepath.Base (Filepath.Join (sourceFolder fs) (Name entry) +:+ ".sha256"))
                 = Ret (Name entry)).
  { rewrite Base_checksum_path by done. apply derive_data_file_sha256. }
  unfold ready_at.
  rewrite (lookup_AddOrUpdateSHA256File _ _ _ _ _ (Name entry) Hkey E).
  rewrite decide_True by reflexivity.
  rewrite lookup_AddOrUpdateDataFile.
  rewrite decide_True by (by apply Base_Join).
  eexists; split; [reflexivity|].
  apply is_ready_spec.
  destruct (files ft !! Name entry); simpl;
    (split; [done|]); (split; [by apply Join_nonempty|]);
    apply append_nonempty_r; discriminate.
Qed.

End ScannerFacts.

(** X6.  A scan pass never panics: for a directory listing whose names are
    proper entry names (non-empty, without a separator), [scan] returns a
    registry and no error.  The slice in [AddOrUpdateSHA256File] is always
    in range there, because the scanner passes it only names that end in
    [.sha256] and paths it has extended by [.sha256] itself. *)
Theorem scan_returns
    (Match : string -> string -> option bool) (fs : Scanner.FileScanner)
    (disk : FileOps.FS) (entries : list Scanner.DirEntry) :
  forall ft : Tracker.FileTracker,
    forallb (fun e => Scanner.entry_name_ok (Scanner.Name e)) entries = true ->
    exists ft', Scanner.scan Match fs disk ft (Some entries) = Ret (ft', false).
Proof.
  unfold Scanner.scan.
  induction entries as [|e es IH]; intros ft Hok; simpl in *.
  - eauto.
  - apply andb_true_iff in Hok as [He Hes].
    destruct (scan_entry_returns Match fs disk ft e He) as [ft1 ->].
    apply IH. exact Hes.
Qed.

Lemma scan_returns_witness :
  exists ft',
    Scanner.scan Scenario.match_star_bin Scenario.scanner_src Scenario.disk_src
      Scenario.registry_checksum_first (Some Scenario.listing_src) = Ret (ft', false).
Proof.
  apply (scan_returns Scenario.match_star_bin Scenario.scanner_src Scenario.disk_src
           Scenario.listing_src Scenario.registry_checksum_first).
  vm_compute. reflexivity.
Defined.

(** X7.  One scan pass reconciles a pair in whichever order its halves
    arrived: after [scan] over a listing of proper entry names, every entry
    that is a regular file, does not end in [.sha256], matches a filter,
    has file information and has its [.sha256] file on disk is tracked
    under its name and is in the list of [GetReadyForVerification],
    whatever the registry held before the pass. *)
Theorem scan_makes_complete_pairs_ready
    (Match : string -> string -> option bool) (fs : Scanner.FileScanner)
    (disk : FileOps.FS) (ft ft' : Tracker.FileTracker)
    (entries : list Scanner.DirEntry) (entry : Scanner.DirEntry) (size : Z) (err : bool) :
  forallb (fun e => Scanner.entry_name_ok (Scanner.Name e)) entries = true ->
  In entry entries ->
  Scanner.IsDir entry = false ->
  Scanner.HasSuffix (Scanner.Name entry) ".sha256" = false ->
  Scanner.matchesFilter Match fs (Scanner.Name entry) = true ->
  Scanner.Info entry = Some size ->
  FileOps.Stat disk
    (Filepath.Join (Scanner.sourceFolder fs) (Scanner.Name entry) +:+ ".sha256") = true ->
  Scanner.scan Match fs disk ft (Some entries) = Ret (ft', err) ->
  exists p, Tracker.files ft' !! Scanner.Name entry = Some p
            /\ In p (Tracker.GetReadyForVerification ft').
Proof.
  intros Hok Hin Hdir Hsuf Hmatch Hinfo Hstat Hscan.
  assert (Hr : ready_at (Scanner.Name entry) ft').
  { unfold Scanner.scan in Hscan.
    destruct (Scanner.scan_entries Match fs disk ft entries) as [ft1|] eqn:E;
      [|discriminate].
    injection Hscan as <- _.
    apply in_split in Hin as (pre & post & ->).
    revert ft E. induction pre as [|e pre IH]; intros ft E; simpl in *.
    - apply andb_true_iff in Hok as [He Hes].
      destruct (Scanner.scan_entry Match fs disk ft entry) as [ft2|] eqn:E2;
        [|discriminate].
      eapply scan_entries_keep_ready; [exact Hes| |exact E].
      eapply scan_entry_makes_ready; eauto.
    - apply andb_true_iff in Hok as [He Hes].
      destruct (Scanner.scan_entry Match fs disk ft e) as [ft2|] eqn:E2; [|discriminate].
      eapply IH; eauto. }
  destruct Hr as (p & Hp & Hready).
  exists p. split; [exact Hp|].
  apply In_GetReadyForVerification. eauto.
Qed.

Lemma scan_makes_complete_pairs_ready_witness :
  exists p,
    Tracker.files
      (match Scanner.scan Scenario.match_star_bin Scenario.scanner_src Scenario.disk_src
               Scenario.registry_checksum_first (Some Scenario.listing_src) with
       | Ret (ft', _) => ft'
       | Panic => Scenario.registry_checksum_first
       end) !! Scanner.Name Scenario.entry_a_bin = Some p
    /\ In p (Tracker.GetReadyForVerification
               (match Scanner.scan Scenario.match_star_bin Scenario.scanner_src
                        Scenario.disk_src Scenario.registry_checksum_first
                        (Some Scenario.listing_src) with
                | Ret (ft', _) => ft'
                | Panic => Scenario.registry_checksum_first
                end)).
Proof.
  apply (scan_makes_complete_pairs_ready Scenario.match_star_bin Scenario.scanner_src
           Scenario.disk_src Scenario.registry_checksum_first _
           Scenario.listing_src Scenario.entry_a_bin 8 false).
  - vm_compute. reflexivity.
  - left. reflexivity.
  - reflexivity.
  - vm_compute. reflexivity.
  - vm_compute. reflexivity.
  - reflexivity.
  - vm_compute. reflexivity.
  - destruct (Scanner.scan Scenario.match_star_bin Scenario.scanner_src Scenario.disk_src
                Scenario.registry_checksum_first (Some Scenario.listing_src))
      as [[ft' e]|] eqn:E.
    + f_equal. f_equal.
      assert (He : match Scanner.scan Scenario.match_star_bin Scenario.scanner_src
                           Scenario.disk_src Scenario.registry_checksum_first
                           (Some Scenario.listing_src) with
                   | Ret (_, b) => b
                   | Panic => false
                   end = false) by (vm_compute; reflexivity).
      rewrite E in He. exact He.
    + vm_compute in E. discriminate.
Defined.

Example scan_example :
  match Scanner.scan Scenario.match_star_bin Scenario.scanner_src Scenario.disk_src
          Scenario.registry_checksum_first (Some Scenario.listing_src) with
  | Ret (ft', err) =>
      (Tracker.GetReadyForVerification ft', Tracker.GetPendingCount ft', err)
  | Panic => ([], 0, true)
  end
  = ([ {| DataFile := "a.bin"; DataFilePath := "/src/a.bin";
          SHA256File := "a.bin.sha256"; SHA256Path := "/src/a.bin.sha256";
          DataSize := 8; FirstSeen := 1; HasBothFiles := true |} ], 2, false).
Proof. vm_compute. reflexivity. Qed.



(** ** File routing: moves, deletions, uniquified names *)

Section FileOpsMore.
Import FileOps.



Lemma length_Ext (s : string) : (String.length (Filepath.Ext s) <= String.length s)%nat.
Proof.
  induction s as [|c s IH]; simpl; [lia|].
  destruct (Filepath.has_dot_or_separator s); [lia|].
  destruct (Ascii.eqb c "."); simpl; lia.
Qed.

Lemma length_substring_0 (n : nat) (s : string) :
  (n <= String.length s)%nat -> String.length (substring 0 n s) = n.
Proof.
  revert s. induction n as [|n IH]; intros s Hn.
  - destruct s; reflexivity.
  - destruct s as [|c s]; simpl in *; [lia|]. rewrite IH; lia.
Qed.

Lemma length_Join (dir name : string) :
  String.length (Filepath.Join dir name)
  = match dir, name with
    | EmptyString, _ => String.length name
    | _, EmptyString => String.length dir
    | _, _ => (String.length dir + 1 + String.length name)%nat
    end.
Proof.
  unfold Filepath.Join. destruct dir as [|d dir]; [reflexivity|].
  destruct name as [|c n]; [reflexivity|].
  rewrite length_append. simpl. lia.
Qed.

(** The uniquified path is strictly longer than the plain one. *)
Lemma length_getUniqueFilePath (pid : Z) (dir filename : string) :
  (String.length (Filepath.Join dir filename)
   < String.length (getUniqueFilePath pid dir filename))%nat.
Proof.
  unfold getUniqueFilePath.
  set (ext := Filepath.Ext filename).
  set (name := substring 0 (String.length filename - String.length ext) filename).
  assert (Hname : String.length name = (String.length filename - String.length ext)%nat).
  { apply length_substring_0. lia. }
  pose proof (length_Ext filename) as Hext. fold ext in Hext.
  set (u := name +:+ "_" +:+ Sprintf_d pid +:+ ext).
  assert (Hu : (String.length filename < String.length u)%nat).
  { unfold u. rewrite !length_append. simpl String.length. lia. }
  rewrite !length_Join.
  destruct dir as [|d dir]; [exact Hu|].
  destruct u as [|c u'] eqn:Eu; [simpl in Hu; lia|].
  destruct filename as [|c' f']; simpl in *; lia.
Qed.

Lemma getUniqueFilePath_differs (pid : Z) (dir filename : string) :
  getUniqueFilePath pid dir filename <> Filepath.Join dir filename.
Proof.
  intros H. pose proof (length_getUniqueFilePath pid dir filename) as Hlt.
  rewrite H in Hlt. lia.
Qed.

End FileOpsMore.









(** X13.  [DeleteBothFiles] stops at the first failure and does not undo
    what it did: when the data file is missing nothing is deleted (the
    checksum file stays); when the data file exists and the checksum file
    does not, the data file is deleted and an error is returned; when both
    exist at different paths both are deleted, no error is returned and
    every other file is untouched. *)
Theorem DeleteBothFiles_outcomes (fs : FileOps.FS) (dataFilePath sha256FilePath : string) :
  (FileOps.entries fs !! dataFilePath = None ->
     exists e, FileOps.DeleteBothFiles fs dataFilePath sha256FilePath = (fs, Some e))
  /\ (forall data,
        FileOps.entries fs !! dataFilePath = Some data ->
        FileOps.entries fs !! sha256FilePath = None ->
        exists fs' e,
          FileOps.DeleteBothFiles fs dataFilePath sha256FilePath = (fs', Some e)
          /\ FileOps.entries fs' !! dataFilePath = None)
  /\ (forall data checksum,
        FileOps.entries fs !! dataFilePath = Some data ->
        FileOps.entries fs !! sha256FilePath = Some checksum ->
        dataFilePath <> sha256FilePath ->
        exists fs',
          FileOps.DeleteBothFiles fs dataFilePath sha256FilePath = (fs', None)
          /\ FileOps.entries fs' !! dataFilePath = None
          /\ FileOps.entries fs' !! sha256FilePath = None
          /\ forall q, q <> dataFilePath -> q <> sha256FilePath ->
               FileOps.entries fs' !! q = FileOps.entries fs !! q).
Proof.
  unfold FileOps.DeleteBothFiles, FileOps.DeleteFile, FileOps.Remove.
  split; [|split].
  - intros Hd. rewrite Hd. eauto.
  - intros data Hd Hs. rewrite Hd. simpl.
    rewrite lookup_delete_ne by (intros ->; congruence).
    rewrite Hs. do 2 eexists. split; [reflexivity|]. simpl.
    by rewrite lookup_delete_eq.
  - intros data checksum Hd Hs Hne. rewrite Hd. simpl.
    rewrite lookup_delete_ne by done. rewrite Hs.
    eexists. split; [reflexivity|]. simpl.
    split; [|split].
    + rewrite lookup_delete_ne by done. by rewrite lookup_delete_eq.
    + by rewrite lookup_delete_eq.
    + intros q Hq1 Hq2. by rewrite !lookup_delete_ne.
Qed.

Lemma DeleteBothFiles_outcomes_witness :
  exists fs' e,
    FileOps.DeleteBothFiles (Pipeline.fsys Scenario.world_B_checksum_gone)
      "/src/b.bin" "/src/b.bin.sha256" = (fs', Some e)
    /\ FileOps.entries fs' !! "/src/b.bin" = None.
Proof.
  apply (proj1 (proj2 (DeleteBothFiles_outcomes
                         (Pipeline.fsys Scenario.world_B_checksum_gone)
                         "/src/b.bin" "/src/b.bin.sha256")) "data").
  - vm_compute. reflexivity.
  - vm_compute. reflexivity.
Defined.

Section ExtensionFacts.
Import Filepath.

Lemma has_dot_or_separator_app (a b : string) :
  has_dot_or_separator (a +:+ b) = has_dot_or_separator a || has_dot_or_separator b.
Proof.
  induction a as [|c a IH]; [reflexivity|].
  rewrite append_cons. simpl. rewrite IH. by rewrite !orb_assoc.
Qed.

(** An extension is empty or a dot followed by characters that are
    neither dots nor separators. *)
Lemma Ext_shape (s : string) :
  Ext s = "" \/ exists r, Ext s = String "." r /\ has_dot_or_separator r = false.
Proof.
  induction s as [|c s IH]; simpl; [by left|].
  destruct (has_dot_or_separator s) eqn:E; [exact IH|].
  destruct (Ascii.eqb_spec c ".") as [->|_]; [|by left].
  right. eauto.
Qed.

Lemma Ext_append_extension (x r : string) :
  has_dot_or_separator r = false -> Ext (x +:+ String "." r) = String "." r.
Proof.
  intros Hr. induction x as [|c x IH].
  - rewrite append_empty_l. simpl. by rewrite Hr.
  - rewrite append_cons. cbn [Ext].
    rewrite has_dot_or_separator_app. simpl has_dot_or_separator.
    by rewrite orb_true_r.
Qed.

Lemma getUniqueFilePath_suffix (pid : Z) (dir filename : string) :
  exists x, FileOps.getUniqueFilePath pid dir filename = x +:+ Ext filename.
Proof.
  unfold FileOps.getUniqueFilePath.
  set (name := substring 0 _ filename).
  set (u := name +:+ "_" +:+ FileOps.Sprintf_d pid +:+ Ext filename).
  assert (Hu : u <> "").
  { unfold u. apply append_nonempty_r. rewrite append_cons. discriminate. }
  unfold Join. destruct dir as [|d dir].
  - exists (name +:+ "_" +:+ FileOps.Sprintf_d pid). unfold u.
    by rewrite !append_assoc.
  - destruct u as [|c u'] eqn:E; [done|]. rewrite <- E. unfold u.
    exists (String d dir +:+ String Separator (name +:+ "_" +:+ FileOps.Sprintf_d pid)).
    rewrite append_assoc. rewrite (append_cons Separator). by rewrite !append_assoc.
Qed.

End ExtensionFacts.

(** X14.  A uniquified name keeps the extension of the file: when the file
    name has an extension, [filepath.Ext] of the path built by
    [getUniqueFilePath] is that extension, whatever the process id and the
    folder; the path is never the plain path [dir/filename]. *)
Theorem getUniqueFilePath_keeps_extension (pid : Z) (dir filename : string) :
  Filepath.Ext filename <> "" ->
  Filepath.Ext (FileOps.getUniqueFilePath pid dir filename) = Filepath.Ext filename
  /\ FileOps.getUniqueFilePath pid dir filename <> Filepath.Join dir filename.
Proof.
  intros Hext. split; [|apply getUniqueFilePath_differs].
  destruct (getUniqueFilePath_suffix pid dir filename) as [x ->].
  destruct (Ext_shape filename) as [H|(r & Hr & Hclean)]; [done|].
  rewrite Hr. by apply Ext_append_extension.
Qed.

Lemma getUniqueFilePath_keeps_extension_witness :
  Filepath.Ext "data.tar.gz" <> ""
  /\ Filepath.Ext (FileOps.getUniqueFilePath 4242 "/verified" "data.tar.gz")
     = Filepath.Ext "data.tar.gz".
Proof.
  split.
  - vm_compute. discriminate.
  - apply (getUniqueFilePath_keeps_extension 4242 "/verified" "data.tar.gz").
    vm_compute. discriminate.
Defined.

(** ** The coordinator and the job queue *)

Section QueueFacts.
Import Tracker Stats Pipeline.

Lemma submit_all_queue (config : VerificationConfig) (wpm : WorkerPoolManager)
    (readyFiles : list FilePair) :
  forall w,
    jobQueue
      (fold_left
         (fun w filePair =>
            fst (SubmitJob wpm w
                   {| JobFilePair := filePair;
                      RetryDeadline := FirstSeen filePair + RetryTimeout config;
                      BufferSize := ConfigBufferSize config |}))
         readyFiles w)
    = (jobQueue w
       ++ List.map (job_of config)
            (firstn (queueSize wpm - List.length (jobQueue w)) readyFiles))%list.
Proof.
  induction readyFiles as [|p ps IH]; intros w.
  - simpl. rewrite firstn_nil. simpl. by rewrite app_nil_r.
  - cbn [fold_left]. rewrite IH. unfold SubmitJob.
    destruct (Nat.ltb_spec (List.length (jobQueue w)) (queueSize wpm)) as [Hlt|Hge];
      simpl.
    + rewrite length_app. simpl.
      replace (queueSize wpm - List.length (jobQueue w))%nat
        with (S (queueSize wpm - (List.length (jobQueue w) + 1)))%nat by lia.
      simpl. by rewrite <- app_assoc.
    + replace (queueSize wpm - List.length (jobQueue w))%nat with 0%nat by lia.
      reflexivity.
Qed.

Lemma jobQueue_coordinator_tick (config : VerificationConfig) (wpm : WorkerPoolManager)
    (w : World) :
  jobQueue (coordinator_tick config wpm w)
  = (jobQueue w
     ++ List.map (job_of config)
          (firstn (queueSize wpm - List.length (jobQueue w))
             (GetReadyForVerification (fileTracker w))))%list.
Proof. unfold coordinator_tick. simpl. apply submit_all_queue. Qed.

End QueueFacts.

(** X15.  What a tick of the coordinator submits.  The job queue after the
    tick is the queue before it followed by one job for each ready pair, in
    the order of the ready list, as long as the queue has room, each with
    [RetryDeadline = FirstSeen + RetryTimeout]; ready pairs beyond the
    capacity get no job in this tick.  Hence a queue within its capacity
    stays within it, and the pending count the tick publishes is the number
    of pairs in the registry. *)
Theorem coordinator_tick_submits_ready_pairs
    (config : Pipeline.VerificationConfig) (wpm : Pipeline.WorkerPoolManager)
    (w : Pipeline.World) :
  Pipeline.jobQueue (Pipeline.coordinator_tick config wpm w)
  = (Pipeline.jobQueue w
     ++ List.map (Pipeline.job_of config)
          (firstn (Pipeline.queueSize wpm - List.length (Pipeline.jobQueue w))
             (Tracker.GetReadyForVerification (Pipeline.fileTracker w))))%list
  /\ ((List.length (Pipeline.jobQueue w) <= Pipeline.queueSize wpm)%nat ->
      (List.length (Pipeline.jobQueue (Pipeline.coordinator_tick config wpm w))
       <= Pipeline.queueSize wpm)%nat)
  /\ Stats.pendingCount (Pipeline.statsTracker (Pipeline.coordinator_tick config wpm w))
     = Tracker.GetPendingCount (Pipeline.fileTracker w).
Proof.
  split; [apply jobQueue_coordinator_tick|]. split.
  - intros Hle. rewrite jobQueue_coordinator_tick.
    rewrite length_app, length_map, length_firstn. lia.
  - unfold Pipeline.coordinator_tick. simpl.
    f_equal. apply (submit_all_keeps config wpm).
Qed.

Lemma coordinator_tick_submits_ready_pairs_witness :
  (List.length (Pipeline.jobQueue Scenario.world_A) <= Pipeline.queueSize Scenario.pool)%nat
  /\ (List.length
        (Pipeline.jobQueue
           (Pipeline.coordinator_tick Scenario.config Scenario.pool Scenario.world_A))
      <= Pipeline.queueSize Scenario.pool)%nat.
Proof.
  split.
  - vm_compute. lia.
  - apply (proj1 (proj2 (coordinator_tick_submits_ready_pairs
                           Scenario.config Scenario.pool Scenario.world_A))).
    vm_compute. lia.
Defined.



Example two_ticks_example :
  Pipeline.jobQueue
    (Pipeline.coordinator_tick Scenario.config Scenario.pool
       (Pipeline.coordinator_tick Scenario.config Scenario.pool Scenario.world_A))
  = [Scenario.job_a; Scenario.job_a].
Proof. vm_compute. reflexivity. Qed.


(** ** The worker: one job from start to end *)

Section JobFacts.
Import Tracker Stats Pipeline.





(** When [VerifyFile] reports no error, the first token matches. *)
Lemma VerifyFile_no_error (content : string) (digest : list ascii) (c e : string) :
  Verifier.VerifyFile (Some content) (Some digest) = Ret (c, e, None) ->
  exists tok,
    Verifier.first_token content = Some tok
    /\ Verifier.ToLower (Verifier.EncodeToString digest) = Verifier.ToLower tok
    /\ c = Verifier.EncodeToString digest /\ e = Verifier.ToLower tok.
Proof.
  unfold Verifier.VerifyFile. intros H.
  destruct (Verifier.first_token content) as [tok|] eqn:Htok.
  - rewrite (ReadSHA256File_token _ _ Htok) in H.
    destruct (negb _); [discriminate|].
    destruct (Verifier.DecodeString _); [|discriminate].
    simpl in H. rewrite ToLower_idempotent in H.
    destruct (String.eqb_spec (Verifier.ToLower (Verifier.EncodeToString digest))
                (Verifier.ToLower tok)) as [Heq|Hne]; simpl in H; [|discriminate].
    injection H as <- <-. eauto.
  - destruct (ReadSHA256File_no_token _ Htok) as [err He].
    rewrite He in H. discriminate.
Qed.





End JobFacts.








(** ** The verifier: what a successful read returns *)

Section ReadFacts.
Import Verifier.


End ReadFacts.



(** X23.  When [VerifyFile] reports no error, the two hashes it returns are
    equal, and both are the lowercase hexadecimal encoding of the digest of
    the data file: this is the value the worker writes to the SHA256 column
    of verification.csv. *)
Theorem VerifyFile_success_returns_the_digest
    (content : string) (digest : list ascii) (computed expected : string) :
  Verifier.VerifyFile (Some content) (Some digest) = Ret (computed, expected, None) ->
  computed = Verifier.EncodeToString digest
  /\ expected = computed
  /\ Verifier.ToLower computed = computed.
Proof.
  intros H.
  destruct (VerifyFile_no_error content digest computed expected H)
    as (tok & _ & Heq & -> & ->).
  rewrite ToLower_EncodeToString in Heq.
  split; [reflexivity|]. split; [by rewrite Heq|apply ToLower_EncodeToString].
Qed.

Lemma VerifyFile_success_returns_the_digest_witness :
  Verifier.ToLower Scenario.hex_ab_upper = Verifier.EncodeToString Scenario.digest_ab
  /\ Verifier.ToLower Scenario.hex_ab_upper = Verifier.ToLower Scenario.hex_ab_upper
  /\ Verifier.ToLower (Verifier.ToLower Scenario.hex_ab_upper)
     = Verifier.ToLower Scenario.hex_ab_upper.
Proof.
  apply (VerifyFile_success_returns_the_digest Scenario.checksum_file_ab
           Scenario.digest_ab).
  vm_compute. reflexivity.
Defined.

(** ** Statistics: the counters count *)

Section CountFacts.
Import Stats.

Lemma step_counts (s : StatsTracker) (c : call) :
  is_reset c = false ->
  0 <= successCount s < 2 ^ 63 - 1 ->
  0 <= failureCount s < 2 ^ 63 - 1 ->
  0 <= totalProcessed s < 2 ^ 63 - 1 ->
  successCount (step s c) = successCount s + (if is_success c then 1 else 0)
  /\ failureCount (step s c) = failureCount s + (if is_failure c then 1 else 0)
  /\ totalProcessed (step s c)
     = totalProcessed s + (if is_success c then 1 else 0)
       + (if is_failure c then 1 else 0).
Proof.
  intros Hnr Hs Hf Ht.
  destruct c; try discriminate Hnr; simpl; rewrite ?wrap64_small by lia; try lia.
  unfold DecrementPending. destruct (0 <? pendingCount s); simpl; lia.
Qed.

Lemma run_counts (cs : list call) :
  forall s : StatsTracker,
    forallb (fun c => negb (is_reset c)) cs = true ->
    0 <= successCount s -> 0 <= failureCount s -> 0 <= totalProcessed s ->
    successCount s + Z.of_nat (List.length cs) < 2 ^ 63 ->
    failureCount s + Z.of_nat (List.length cs) < 2 ^ 63 ->
    totalProcessed s + Z.of_nat (List.length cs) < 2 ^ 63 ->
    successCount (run s cs) = successCount s + count is_success cs
    /\ failureCount (run s cs) = failureCount s + count is_failure cs
    /\ totalProcessed (run s cs)
       = totalProcessed s + count is_success cs + count is_failure cs.
Proof.
  unfold count, run.
  induction cs as [|c cs IH]; intros s Hnr Hs Hf Ht Hbs Hbf Hbt.
  - simpl. lia.
  - cbn [forallb] in Hnr. apply andb_true_iff in Hnr as [Hc Hcs].
    apply negb_true_iff in Hc.
    cbn [List.length] in Hbs, Hbf, Hbt.
    destruct (step_counts s c Hc) as (E1 & E2 & E3); [lia|lia|lia|].
    cbn [fold_left].
    destruct (IH (step s c) Hcs) as (H1 & H2 & H3).
    + rewrite E1. destruct (is_success c); lia.
    + rewrite E2. destruct (is_failure c); lia.
    + rewrite E3. destruct (is_success c), (is_failure c); lia.
    + rewrite E1. destruct (is_success c); lia.
    + rewrite E2. destruct (is_failure c); lia.
    + rewrite E3.
      assert (is_success c && is_failure c = false) by (by destruct c).
      destruct (is_success c), (is_failure c); try discriminate; lia.
    + rewrite H1, H2, H3, E1, E2, E3. cbn [List.filter].
      destruct (is_success c), (is_failure c); cbn [List.length]; lia.
Qed.

End CountFacts.

(** X24.  The counters count: from a new tracker, after a sequence of
    fewer than 2^63 calls without [Reset], [successCount] is the number of
    [IncrementSuccess] calls, [failureCount] the number of
    [IncrementFailure] calls and [totalProcessed] their sum; the calls on
    the pending gauge change none of them. *)
Theorem stats_counters_count_calls (now : Z) (cs : list Stats.call) :
  forallb (fun c => negb (Stats.is_reset c)) cs = true ->
  Z.of_nat (List.length cs) < 2 ^ 63 ->
  Stats.successCount (Stats.run (Stats.NewStatsTracker now) cs)
  = Stats.count Stats.is_success cs
  /\ Stats.failureCount (Stats.run (Stats.NewStatsTracker now) cs)
     = Stats.count Stats.is_failure cs
  /\ Stats.totalProcessed (Stats.run (Stats.NewStatsTracker now) cs)
     = Stats.count Stats.is_success cs + Stats.count Stats.is_failure cs.
Proof.
  intros Hnr Hlen.
  destruct (run_counts cs (Stats.NewStatsTracker now) Hnr) as (H1 & H2 & H3);
    simpl; try lia.
  rewrite H1, H2, H3. simpl. lia.
Qed.

Lemma stats_counters_count_calls_witness :
  Stats.successCount
    (Stats.run (Stats.NewStatsTracker 0)
       [Stats.CallIncrementSuccess 5; Stats.CallSetPendingCount 9;
        Stats.CallIncrementFailure 7; Stats.CallIncrementSuccess 2;
        Stats.CallDecrementPending])
  = Stats.count Stats.is_success
      [Stats.CallIncrementSuccess 5; Stats.CallSetPendingCount 9;
       Stats.CallIncrementFailure 7; Stats.CallIncrementSuccess 2;
       Stats.CallDecrementPending].
Proof.
  apply (stats_counters_count_calls 0
           [Stats.CallIncrementSuccess 5; Stats.CallSetPendingCount 9;
            Stats.CallIncrementFailure 7; Stats.CallIncrementSuccess 2;
            Stats.CallDecrementPending]).
  - vm_compute. reflexivity.
  - vm_compute. reflexivity.
Defined.

(** ** The scanner never forgets *)

Section ScannerKeeps.
Import Tracker History Scanner.

Variable Match : string -> string -> option bool.

Lemma scan_entry_keeps_tracked (fs : FileScanner) (disk : FileOps.FS)
    (ft ft' : FileTracker) (entry : DirEntry) (k : string) (p : FilePair) :
  files ft !! k = Some p ->
  scan_entry Match fs disk ft entry = Ret ft' ->
  exists p', files ft' !! k = Some p' /\ FirstSeen p' = FirstSeen p.
Proof.
  intros Hk Hscan. unfold scan_entry in Hscan.
  destruct (IsDir entry); [injection Hscan as <-; eauto|].
  destruct (HasSuffix (Name entry) ".sha256").
  - destruct (step_keeps_FirstSeen k ft ft'
                (RecordChecksum (Filepath.Join (sourceFolder fs) (Name entry))
                   (seenChecksum entry)) p eq_refl Hk Hscan) as (p' & Hp' & Hfs & _).
    eauto.
  - destruct (matchesFilter Match fs (Name entry)); [|injection Hscan as <-; eauto].
    destruct (Info entry) as [size|]; [|injection Hscan as <-; eauto].
    destruct (step_keeps_FirstSeen k ft _
                (RecordData (Filepath.Join (sourceFolder fs) (Name entry)) size
                   (seenData entry)) p eq_refl Hk eq_refl) as (p1 & Hp1 & Hfs1 & _).
    destruct (FileOps.Stat disk _); [|injection Hscan as <-; eauto].
    destruct (AddOrUpdateSHA256File _ _ _) as [ft2|] eqn:E; [|discriminate].
    injection Hscan as <-.
    destruct (step_keeps_FirstSeen k _ ft2
                (RecordChecksum (Filepath.Join (sourceFolder fs) (Name entry) +:+ ".sha256")
                   (seenChecksum entry)) p1 eq_refl Hp1 E) as (p2 & Hp2 & Hfs2 & _).
    rewrite files_MarkBothFilesPresent.
    destruct (decide (Name entry = k)) as [_|_].
    + rewrite Hp2. eexists. split; [reflexivity|]. simpl. congruence.
    + exists p2. split; [done|]. congruence.
Qed.

Lemma scan_entries_keep_tracked (fs : FileScanner) (disk : FileOps.FS)
    (entries : list DirEntry) (k : string) :
  forall (ft ft' : FileTracker) (p : FilePair),
    files ft !! k = Some p ->
    scan_entries Match fs disk ft entries = Ret ft' ->
    exists p', files ft' !! k = Some p' /\ FirstSeen p' = FirstSeen p.
Proof.
  induction entries as [|e es IH]; intros ft ft' p Hk Hscan; simpl in Hscan.
  - injection Hscan as <-. eauto.
  - destruct (scan_entry Match fs disk ft e) as [ft1|] eqn:E; [|discriminate].
    destruct (scan_entry_keeps_tracked fs disk ft ft1 e k p Hk E) as (p1 & Hp1 & Hfs1).
    destruct (IH ft1 ft' p1 Hp1 Hscan) as (p' & Hp' & Hfs').
    exists p'. split; [done|]. congruence.
Qed.

End ScannerKeeps.

(** X8.  The scanner never forgets a pair and never renews its first
    sighting: every pair tracked before a scan pass is tracked after it,
    with the same [FirstSeen], whether or not its files are in the listing
    (they may have vanished from the folder) and also when reading the
    folder fails. *)
Theorem scan_keeps_tracked_pairs
    (Match : string -> string -> option bool) (fs : Scanner.FileScanner)
    (disk : FileOps.FS) (ft ft' : Tracker.FileTracker)
    (listing : option (list Scanner.DirEntry)) (err : bool) (k : string) (p : FilePair) :
  Tracker.files ft !! k = Some p ->
  Scanner.scan Match fs disk ft listing = Ret (ft', err) ->
  exists p', Tracker.files ft' !! k = Some p' /\ FirstSeen p' = FirstSeen p.
Proof.
  intros Hk Hscan. unfold Scanner.scan in Hscan.
  destruct listing as [entries|].
  - destruct (Scanner.scan_entries Match fs disk ft entries) as [ft1|] eqn:E;
      [|discriminate].
    injection Hscan as <- _.
    by eapply scan_entries_keep_tracked.
  - injection Hscan as <- _. eauto.
Qed.

Lemma scan_keeps_tracked_pairs_witness :
  exists p',
    Tracker.files
      (match Scanner.scan Scenario.match_star_bin Scenario.scanner_src Scenario.disk_src
               Scenario.registry_bc (Some Scenario.listing_src) with
       | Ret (ft', _) => ft'
       | Panic => Scenario.registry_bc
       end) !! "c.bin" = Some p'
    /\ FirstSeen p' = FirstSeen
                        {| DataFile := "c.bin"; DataFilePath := "/src/c.bin";
                           SHA256File := ""; SHA256Path := "";
                           DataSize := 7; FirstSeen := 0; HasBothFiles := false |}.
Proof.
  apply (scan_keeps_tracked_pairs Scenario.match_star_bin Scenario.scanner_src
           Scenario.disk_src Scenario.registry_bc _ (Some Scenario.listing_src) false "c.bin").
  - vm_compute. reflexivity.
  - destruct (Scanner.scan Scenario.match_star_bin Scenario.scanner_src Scenario.disk_src
                Scenario.registry_bc (Some Scenario.listing_src))
      as [[ft' e]|] eqn:E.
    + f_equal. f_equal.
      assert (He : match Scanner.scan Scenario.match_star_bin Scenario.scanner_src
                           Scenario.disk_src Scenario.registry_bc
                           (Some Scenario.listing_src) with
                   | Ret (_, b) => b
                   | Panic => false
                   end = false) by (vm_compute; reflexivity).
      rewrite E in He. exact He.
    + vm_compute in E. discriminate.
Defined.

(** ** The registry's lists *)

(** X25.  The lists the registry hands out are drawn from the tracked
    pairs: [GetAllFiles] has as many elements as [GetPendingCount] says and
    lists exactly the pairs [GetFilePair] finds; every pair returned by
    [GetReadyForVerification] or by [GetExpiredFiles] is one of them; and
    after [Clear] nothing is tracked, ready or expired while the retry
    timeout is kept. *)
Theorem registry_lists (ft : Tracker.FileTracker) (now : Z) :
  Z.of_nat (List.length (Tracker.GetAllFiles ft)) = Tracker.GetPendingCount ft
  /\ (forall p, In p (Tracker.GetAllFiles ft)
                <-> exists k, Tracker.GetFilePair ft k = Some p)
  /\ (forall p, In p (Tracker.GetReadyForVerification ft) -> In p (Tracker.GetAllFiles ft))
  /\ (forall p, In p (Tracker.GetExpiredFiles ft now) -> In p (Tracker.GetAllFiles ft))
  /\ Tracker.GetAllFiles (Tracker.Clear ft) = []
  /\ Tracker.GetPendingCount (Tracker.Clear ft) = 0
  /\ Tracker.retryTimeout (Tracker.Clear ft) = Tracker.retryTimeout ft.
Proof.
  split; [|split; [|split; [|split; [|split; [|split]]]]].
  - unfold Tracker.GetAllFiles, Tracker.all_pairs, Tracker.GetPendingCount.
    by rewrite length_fmap, length_map_to_list.
  - intros p. apply In_all_pairs.
  - intros p Hin. apply In_GetReadyForVerification in Hin as (k & Hk & _).
    apply In_all_pairs. eauto.
  - intros p Hin. apply In_GetExpiredFiles in Hin as (k & Hk & _).
    apply In_all_pairs. eauto.
  - unfold Tracker.GetAllFiles, Tracker.all_pairs, Tracker.Clear. simpl.
    by rewrite map_to_list_empty.
  - unfold Tracker.GetPendingCount, Tracker.Clear. simpl. by rewrite map_size_empty.
  - reflexivity.
Qed.

Lemma registry_lists_witness :
  In Scenario.pair_b (Tracker.GetAllFiles Scenario.registry_bc).
Proof.
  apply (proj1 (proj2 (proj2 (registry_lists Scenario.registry_bc 0)))).
  vm_compute. left. reflexivity.
Defined.

